(** * terraform-provider-nats: a shallow embedding and its verified properties

    The development follows the layout of the repository:

    - [natsgo]   : the part of the wrapped library [github.com/nats-io/nats.go]
                   that the repository relies on (enum constants, sentinel
                   errors, the config and info structs);
    - [nats]     : package [internal/nats] (string-enum mappings and the client);
    - [provider] : package [internal/provider] (validators, the two resources
                   and their struct-mapping functions).

    Go integers are modelled as [Z] with the wrap-around of every narrowing
    conversion written out, Go maps as stdpp's [gmap], slices as lists, and
    calls to an external party (the NATS library for the client, the client
    interface for the resources) as the nodes of a finite call tree. *)

From Stdlib Require Import ZArith String Ascii List Bool Lia.
From stdpp Require Import base option gmap strings list fin_maps.

Open Scope string_scope.
Open Scope Z_scope.
Open Scope list_scope.

(** ** Go basics: zero values, fixed-width integers, errors *)

(** The zero value of a Go type, as returned by a map lookup on a missing key. *)
Class GoZero (A : Type) := go_zero : A.
#[export] Instance Z_GoZero : GoZero Z := 0.
#[export] Instance string_GoZero : GoZero string := "".
#[export] Instance bool_GoZero : GoZero bool := false.
#[export] Instance list_GoZero {A} : GoZero (list A) := [].

(** Conversion of an integer to a signed [bits]-wide Go integer type:
    the value is taken modulo [2^bits] into the signed range. *)
Definition wrap_signed (bits : Z) (z : Z) : Z :=
  (z + 2 ^ (bits - 1)) mod 2 ^ bits - 2 ^ (bits - 1).

Definition in_signed (bits : Z) (z : Z) : Prop :=
  - 2 ^ (bits - 1) <= z < 2 ^ (bits - 1).

(** [int] is 64 bits wide on the platforms the provider is built for. *)
Definition int_bits : Z := 64.
Definition to_int (z : Z) : Z := wrap_signed int_bits z.
Definition to_int32 (z : Z) : Z := wrap_signed 32 z.
Definition to_int64 (z : Z) : Z := wrap_signed 64 z.

Abbreviation is_int64 z := (in_signed 64 z).
Abbreviation is_int32 z := (in_signed 32 z).

(** Go [error] values.  Sentinels are compared by identity, [fmt.Errorf] with
    the [%w] verb wraps its cause, and [errors.Is] walks the chain of causes. *)
Inductive error : Type :=
  | ErrNotFound                 (* internal/nats: errors.New("not found") *)
  | ErrStreamNotFound           (* sentinel of nats.go *)
  | ErrConsumerNotFound         (* sentinel of nats.go *)
  | ErrorString (msg : string)  (* any other error that wraps nothing *)
  | Errorf_w (prefix : string) (cause : error).
    (* fmt.Errorf(prefix + ": %w", cause) *)

#[export] Instance error_eq_dec : EqDecision error.
Proof. solve_decision. Defined.

(** [err.Error()] *)
Fixpoint Error (e : error) : string :=
  match e with
  | ErrNotFound => "not found"
  | ErrStreamNotFound => "nats: stream not found"
  | ErrConsumerNotFound => "nats: consumer not found"
  | ErrorString msg => msg
  | Errorf_w prefix cause => (prefix ++ ": " ++ Error cause)%string
  end.

(** [errors.Is(e, target)] for a sentinel [target]. *)
Fixpoint errors_Is (e target : error) : bool :=
  if decide (e = target) then true
  else match e with
       | Errorf_w _ cause => errors_Is cause target
       | _ => false
       end.

(** A Go result pair [(T, error)]; [None] is the nil error. *)
Definition result (T : Type) : Type := (T * option error)%type.

(** ** Call trees

    Code that calls into an external party is a finite tree: it either returns,
    or performs one call of the interface [E] and continues with the answer. *)
Inductive Prog (E : Type → Type) (R : Type) : Type :=
  | Ret (r : R)
  | Call {X : Type} (e : E X) (k : X → Prog E R).
Arguments Ret {E R} r.
Arguments Call {E R X} e k.

Fixpoint bind {E R S} (p : Prog E R) (f : R → Prog E S) : Prog E S :=
  match p with
  | Ret r => f r
  | Call e k => Call e (λ x, bind (k x) f)
  end.

Definition call {E X} (e : E X) : Prog E X := Call e Ret.

Declare Scope prog_scope.
Delimit Scope prog_scope with prog.
Notation "'let*' x ':=' p 'in' q" := (bind p (λ x, q))
  (at level 10, x name, p at level 100, q at level 200) : prog_scope.

(** One observed call: the request and the answer the other side gave. *)
Inductive Event (E : Type → Type) : Type :=
  | Ev {X : Type} (e : E X) (x : X).
Arguments Ev {E X} e x.

(** [runs p tr r]: against some behaviour of the other side, [p] performs
    exactly the calls of [tr], in this order, and returns [r]. *)
Inductive runs {E R} : Prog E R → list (Event E) → R → Prop :=
  | runs_Ret r : runs (Ret r) [] r
  | runs_Call {X} (e : E X) k x tr r :
      runs (k x) tr r → runs (Call e k) (Ev e x :: tr) r.

(** Running against a handler that answers every call from a state [S]. *)
Fixpoint exec {E R S} (h : ∀ X, E X → S → X * S) (p : Prog E R) (s : S)
    : list (Event E) * R * S :=
  match p with
  | Ret r => ([], r, s)
  | Call e k =>
      let '(x, s1) := h _ e s in
      let '(tr, r, s2) := exec h (k x) s1 in
      (Ev e x :: tr, r, s2)
  end.

(** Running [p] with every call of [E] carried out by the call tree [h]
    gives for it, over the interface [F] that [h] itself calls. *)
Fixpoint interp {E F R} (h : ∀ X, E X → Prog F X) (p : Prog E R)
    : Prog F R :=
  match p with
  | Ret r => Ret r
  | Call e k => bind (h _ e) (λ x, interp h (k x))
  end.

(** [os.Getenv]: the value of the variable, empty when it is not set. *)
Definition os_Getenv (env : gmap string string) (key : string) : string :=
  default "" (env !! key).

(** ** The wrapped library, as far as the repository uses it *)
Module natsgo.

(** The enum types are Go [int]s; the constants are declared with [iota]. *)
Abbreviation StorageType := Z (only parsing).
Definition FileStorage : StorageType := 0.
Definition MemoryStorage : StorageType := 1.

Abbreviation DiscardPolicy := Z (only parsing).
Definition DiscardOld : DiscardPolicy := 0.
Definition DiscardNew : DiscardPolicy := 1.

Abbreviation RetentionPolicy := Z (only parsing).
Definition LimitsPolicy : RetentionPolicy := 0.
Definition InterestPolicy : RetentionPolicy := 1.
Definition WorkQueuePolicy : RetentionPolicy := 2.

Abbreviation AckPolicy := Z (only parsing).
Definition AckNonePolicy : AckPolicy := 0.
Definition AckAllPolicy : AckPolicy := 1.
Definition AckExplicitPolicy : AckPolicy := 2.

Abbreviation DeliverPolicy := Z (only parsing).
Definition DeliverAllPolicy : DeliverPolicy := 0.
Definition DeliverLastPolicy : DeliverPolicy := 1.
Definition DeliverNewPolicy : DeliverPolicy := 2.
Definition DeliverByStartSequencePolicy : DeliverPolicy := 3.
Definition DeliverByStartTimePolicy : DeliverPolicy := 4.
Definition DeliverLastPerSubjectPolicy : DeliverPolicy := 5.

(** The fields of [nats.StreamConfig] that the provider sets or reads; every
    other field keeps its zero value.  [Replicas] and [MaxConsumers] are
    [int], [MaxMsgSize] is [int32], [MaxAge] and [Duplicates] are
    [time.Duration] (an [int64]). *)
Module StreamConfig.
Record t : Type := mk {
  Name : string;
  Subjects : list string;
  Storage : StorageType;
  Replicas : Z;
  Retention : RetentionPolicy;
  Discard : DiscardPolicy;
  MaxMsgs : Z;
  MaxConsumers : Z;
  MaxBytes : Z;
  MaxMsgsPerSubject : Z;
  MaxMsgSize : Z;
  MaxAge : Z;
  Duplicates : Z;
  AllowDirect : bool;
}.
End StreamConfig.

(** [nats.StreamInfo]: the config plus server-side data that the provider
    never looks at (represented here by the creation time). *)
Module StreamInfo.
Record t : Type := mk {
  Config : StreamConfig.t;
  Created : Z;
}.
End StreamInfo.

Module ConsumerConfig.
Record t : Type := mk {
  Name : string;
  Durable : string;
  DeliverPolicy : DeliverPolicy;
  AckPolicy : AckPolicy;
  FilterSubjects : list string;
  DeliverSubject : string;
  DeliverGroup : string;
}.
End ConsumerConfig.

Module ConsumerInfo.
Record t : Type := mk {
  Stream : string;
  Name : string;
  Config : ConsumerConfig.t;
  Created : Z;
}.
End ConsumerInfo.

(** The library calls made by the repository.  A library call that returns a
    pointer and an error answers with a [LibResult]: the pointer is valid
    exactly when the error is nil. *)
Inductive LibResult (T : Type) : Type :=
  | LibOk (v : T)
  | LibErr (err : error).
Arguments LibOk {T} v.
Arguments LibErr {T} err.

(** A connection handle ([*nats.Conn]). *)
Definition Conn : Type := nat.

(** The JetStream context made by [nc.JetStream()] is bound to [nc]. *)
Record JetStreamContext : Type := mkJetStreamContext { js_nc : Conn }.

Inductive NatsE : Type → Type :=
  | Connect (url : string) : NatsE (LibResult Conn)
  | Conn_Close (nc : Conn) : NatsE unit
  | Conn_JetStream (nc : Conn) : NatsE (option error)
  | js_StreamInfo (js : JetStreamContext) (stream : string)
      : NatsE (LibResult StreamInfo.t)
  | js_AddStream (js : JetStreamContext) (cfg : StreamConfig.t)
      : NatsE (LibResult StreamInfo.t)
  | js_UpdateStream (js : JetStreamContext) (cfg : StreamConfig.t)
      : NatsE (LibResult StreamInfo.t)
  | js_DeleteStream (js : JetStreamContext) (stream : string)
      : NatsE (option error)
  | js_ConsumerInfo (js : JetStreamContext) (stream consumer : string)
      : NatsE (LibResult ConsumerInfo.t)
  | js_AddConsumer (js : JetStreamContext) (stream : string)
      (cfg : ConsumerConfig.t) : NatsE (LibResult ConsumerInfo.t)
  | js_UpdateConsumer (js : JetStreamContext) (stream : string)
      (cfg : ConsumerConfig.t) : NatsE (LibResult ConsumerInfo.t)
  | js_DeleteConsumer (js : JetStreamContext) (stream consumer : string)
      : NatsE (option error).

End natsgo.

#[export] Instance StreamConfig_GoZero : GoZero natsgo.StreamConfig.t :=
  natsgo.StreamConfig.mk "" [] 0 0 0 0 0 0 0 0 0 0 0 false.
#[export] Instance StreamInfo_GoZero : GoZero natsgo.StreamInfo.t :=
  natsgo.StreamInfo.mk go_zero 0.
#[export] Instance ConsumerConfig_GoZero : GoZero natsgo.ConsumerConfig.t :=
  natsgo.ConsumerConfig.mk "" "" 0 0 [] "" "".
#[export] Instance ConsumerInfo_GoZero : GoZero natsgo.ConsumerInfo.t :=
  natsgo.ConsumerInfo.mk "" "" go_zero 0.

(** ** Package internal/nats, file utils.go *)

(** [invertMap]: ranges over the entries of [in] and stores each one reversed.
    Go leaves the iteration order unspecified; [map_fold] fixes one
    ([invertMap_order_irrelevant] shows that the choice does not matter for
    the maps of this package). *)
Definition invertMap {A B} `{Countable A, Countable B}
    (m : gmap A B) : gmap B A :=
  map_fold (λ k v out, <[v := k]> out) ∅ m.

(** The same loop when the entries come in the order [entries]. *)
Definition invertMap_in_order {A B} `{Countable A, Countable B}
    (entries : list (A * B)) : gmap B A :=
  foldl (λ out kv, <[kv.2 := kv.1]> out) ∅ entries.

(** [mapFn]: the lookup function of a map; a missing key yields the zero value. *)
Definition mapFn {A B} `{Countable A} `{GoZero B} (m : gmap A B) : A → B :=
  λ a, default go_zero (m !! a).

(** A map is invertible when no two keys share a value. *)
Definition map_injective {A B} `{Countable A} (m : gmap A B) : Prop :=
  ∀ k1 k2 v, m !! k1 = Some v → m !! k2 = Some v → k1 = k2.

(** ** Package internal/nats, file types.go: the string-enum mappings *)
Module nats.
Import natsgo.

Definition storageType : gmap string Z :=
  <["memory" := MemoryStorage]> (<["file" := FileStorage]> ∅).
Definition invertedStorageType : gmap Z string := invertMap storageType.
Definition ToStorageType : string → Z := mapFn storageType.
Definition FromStorageType : Z → string := mapFn invertedStorageType.

Definition discardPolicy : gmap string Z :=
  <["new" := DiscardNew]> (<["old" := DiscardOld]> ∅).
Definition invertedDiscardPolicy : gmap Z string := invertMap discardPolicy.
Definition ToDiscardPolicy : string → Z := mapFn discardPolicy.
Definition FromDiscardPolicy : Z → string := mapFn invertedDiscardPolicy.

Definition retentionPolicy : gmap string Z :=
  <["work" := WorkQueuePolicy]>
    (<["interest" := InterestPolicy]> (<["limits" := LimitsPolicy]> ∅)).
Definition invertedRetentionPolicy : gmap Z string := invertMap retentionPolicy.
Definition ToRetentionPolicy : string → Z := mapFn retentionPolicy.
Definition FromRetentionPolicy : Z → string := mapFn invertedRetentionPolicy.

Definition ackPolicy : gmap string Z :=
  <["explicit" := AckExplicitPolicy]>
    (<["all" := AckAllPolicy]> (<["none" := AckNonePolicy]> ∅)).
Definition invertedAckPolicy : gmap Z string := invertMap ackPolicy.
Definition ToAckPolicy : string → Z := mapFn ackPolicy.
Definition FromAckPolicy : Z → string := mapFn invertedAckPolicy.

Definition deliverPolicy : gmap string Z :=
  <["last" := DeliverLastPolicy]>
    (<["new" := DeliverNewPolicy]> (<["all" := DeliverAllPolicy]> ∅)).
Definition invertedDeliverPolicy : gmap Z string := invertMap deliverPolicy.
Definition ToDeliverPolicy : string → Z := mapFn deliverPolicy.
Definition FromDeliverPolicy : Z → string := mapFn invertedDeliverPolicy.

(** ** Package internal/nats, file types.go: the client *)

Abbreviation StreamConfig := natsgo.StreamConfig.t (only parsing).
Abbreviation StreamInfo := natsgo.StreamInfo.t (only parsing).
Abbreviation ConsumerConfig := natsgo.ConsumerConfig.t (only parsing).
Abbreviation ConsumerInfo := natsgo.ConsumerInfo.t (only parsing).

(** The [Client] interface: one constructor per method. *)
Inductive Client : Type → Type :=
  | GetStream (streamName : string) : Client (result StreamInfo)
  | CreateStream (streamConfig : StreamConfig) : Client (result StreamInfo)
  | UpdateStream (streamConfig : StreamConfig) : Client (result StreamInfo)
  | DeleteStream (streamName : string) : Client (option error)
  | GetConsumer (streamName consumerName : string)
      : Client (result ConsumerInfo)
  | CreateConsumer (streamName : string) (consumerConfig : ConsumerConfig)
      : Client (result ConsumerInfo)
  | UpdateConsumer (streamName : string) (consumerConfig : ConsumerConfig)
      : Client (result ConsumerInfo)
  | DeleteConsumer (streamName consumerName : string)
      : Client (option error).

Record client : Type := mkclient { url : string }.

Definition NewClient (url : string) : client := mkclient url.

(** [defer nc.Close()]: the deferred call runs when the surrounding function
    returns, after its results have been computed. *)
Definition defer_Close {R} (nc : Conn) (body : Prog NatsE R) : Prog NatsE R :=
  (let* r := body in let* _ := call (Conn_Close nc) in Ret r)%prog.

Definition is_not_found (err : error) : bool :=
  errors_Is err ErrStreamNotFound || errors_Is err ErrConsumerNotFound.

Definition client_GetStream (c : client) (streamName : string)
    : Prog NatsE (result StreamInfo) :=
  Call (Connect (url c)) (λ r, match r with
  | LibErr err => Ret (go_zero, Some (Errorf_w "failed to connect to nats" err))
  | LibOk nc => defer_Close nc (
    Call (Conn_JetStream nc) (λ r, match r with
    | Some err =>
        Ret (go_zero, Some (Errorf_w "failed to create a jetstream context" err))
    | None => let js := mkJetStreamContext nc in
      Call (js_StreamInfo js streamName) (λ r, match r with
      | LibErr err =>
          if is_not_found err then Ret (go_zero, Some ErrNotFound)
          else Ret (go_zero, Some (Errorf_w "failed to retrieve stream info" err))
      | LibOk info => Ret (info, None)
      end)
    end))
  end).

Definition client_CreateStream (c : client) (streamConfig : StreamConfig)
    : Prog NatsE (result StreamInfo) :=
  Call (Connect (url c)) (λ r, match r with
  | LibErr err => Ret (go_zero, Some (Errorf_w "failed to connect to nats" err))
  | LibOk nc => defer_Close nc (
    Call (Conn_JetStream nc) (λ r, match r with
    | Some err =>
        Ret (go_zero, Some (Errorf_w "failed to create a jetstream context" err))
    | None => let js := mkJetStreamContext nc in
      let cfg := streamConfig in
      Call (js_AddStream js cfg) (λ r, match r with
      | LibErr err => Ret (go_zero, Some (Errorf_w "failed to create stream" err))
      | LibOk info => Ret (info, None)
      end)
    end))
  end).

Definition client_UpdateStream (c : client) (streamConfig : StreamConfig)
    : Prog NatsE (result StreamInfo) :=
  Call (Connect (url c)) (λ r, match r with
  | LibErr err => Ret (go_zero, Some (Errorf_w "failed to connect to nats" err))
  | LibOk nc => defer_Close nc (
    Call (Conn_JetStream nc) (λ r, match r with
    | Some err =>
        Ret (go_zero, Some (Errorf_w "failed to create a jetstream context" err))
    | None => let js := mkJetStreamContext nc in
      let cfg := streamConfig in
      Call (js_UpdateStream js cfg) (λ r, match r with
      | LibErr err => Ret (go_zero, Some (Errorf_w "failed to update stream" err))
      | LibOk info => Ret (info, None)
      end)
    end))
  end).

Definition client_DeleteStream (c : client) (streamName : string)
    : Prog NatsE (option error) :=
  Call (Connect (url c)) (λ r, match r with
  | LibErr err => Ret (Some (Errorf_w "failed to connect to nats" err))
  | LibOk nc => defer_Close nc (
    Call (Conn_JetStream nc) (λ r, match r with
    | Some err =>
        Ret (Some (Errorf_w "failed to create a jetstream context" err))
    | None => let js := mkJetStreamContext nc in
      Call (js_DeleteStream js streamName) (λ r, match r with
      | Some err => Ret (Some (Errorf_w "failed to delete stream" err))
      | None => Ret None
      end)
    end))
  end).

Definition client_GetConsumer (c : client) (streamName consumerName : string)
    : Prog NatsE (result ConsumerInfo) :=
  Call (Connect (url c)) (λ r, match r with
  | LibErr err => Ret (go_zero, Some (Errorf_w "failed to connect to nats" err))
  | LibOk nc => defer_Close nc (
    Call (Conn_JetStream nc) (λ r, match r with
    | Some err =>
        Ret (go_zero, Some (Errorf_w "failed to create a jetstream context" err))
    | None => let js := mkJetStreamContext nc in
      Call (js_ConsumerInfo js streamName consumerName) (λ r, match r with
      | LibErr err =>
          if is_not_found err then Ret (go_zero, Some ErrNotFound)
          else Ret (go_zero,
                    Some (Errorf_w "failed to retrieve consumer info" err))
      | LibOk info => Ret (info, None)
      end)
    end))
  end).

Definition client_CreateConsumer (c : client) (streamName : string)
    (consumerConfig : ConsumerConfig) : Prog NatsE (result ConsumerInfo) :=
  Call (Connect (url c)) (λ r, match r with
  | LibErr err => Ret (go_zero, Some (Errorf_w "failed to connect to nats" err))
  | LibOk nc => defer_Close nc (
    Call (Conn_JetStream nc) (λ r, match r with
    | Some err =>
        Ret (go_zero, Some (Errorf_w "failed to create a jetstream context" err))
    | None => let js := mkJetStreamContext nc in
      let cfg := consumerConfig in
      Call (js_AddConsumer js streamName cfg) (λ r, match r with
      | LibErr err =>
          Ret (go_zero, Some (Errorf_w "failed to create consumer" err))
      | LibOk info => Ret (info, None)
      end)
    end))
  end).

Definition client_UpdateConsumer (c : client) (streamName : string)
    (consumerConfig : ConsumerConfig) : Prog NatsE (result ConsumerInfo) :=
  Call (Connect (url c)) (λ r, match r with
  | LibErr err => Ret (go_zero, Some (Errorf_w "failed to connect to nats" err))
  | LibOk nc => defer_Close nc (
    Call (Conn_JetStream nc) (λ r, match r with
    | Some err =>
        Ret (go_zero, Some (Errorf_w "failed to create a jetstream context" err))
    | None => let js := mkJetStreamContext nc in
      let cfg := consumerConfig in
      Call (js_UpdateConsumer js streamName cfg) (λ r, match r with
      | LibErr err =>
          Ret (go_zero, Some (Errorf_w "failed to update consumer" err))
      | LibOk info => Ret (info, None)
      end)
    end))
  end).

Definition client_DeleteConsumer (c : client) (streamName consumerName : string)
    : Prog NatsE (option error) :=
  Call (Connect (url c)) (λ r, match r with
  | LibErr err => Ret (Some (Errorf_w "failed to connect to nats" err))
  | LibOk nc => defer_Close nc (
    Call (Conn_JetStream nc) (λ r, match r with
    | Some err =>
        Ret (Some (Errorf_w "failed to create a jetstream context" err))
    | None => let js := mkJetStreamContext nc in
      Call (js_DeleteConsumer js streamName consumerName) (λ r, match r with
      | Some err => Ret (Some (Errorf_w "failed to delete consumer" err))
      | None => Ret None
      end)
    end))
  end).

(** Method dispatch: [*client] implements [Client]. *)
Definition client_call (c : client) {X} (m : Client X) : Prog NatsE X :=
  match m with
  | GetStream streamName => client_GetStream c streamName
  | CreateStream cfg => client_CreateStream c cfg
  | UpdateStream cfg => client_UpdateStream c cfg
  | DeleteStream streamName => client_DeleteStream c streamName
  | GetConsumer s n => client_GetConsumer c s n
  | CreateConsumer s cfg => client_CreateConsumer c s cfg
  | UpdateConsumer s cfg => client_UpdateConsumer c s cfg
  | DeleteConsumer s n => client_DeleteConsumer c s n
  end.

End nats.

(** ** The Terraform plugin framework, as far as the provider uses it *)

(** Package [types]: an attribute value is null, unknown, or a known value.
    The [Value...] accessors return the zero value unless the value is known;
    the zero value of the Go type is the null value. *)
Module types.
Inductive value (A : Type) : Type :=
  | Null
  | Unknown
  | Known (a : A).
Arguments Null {A}.
Arguments Unknown {A}.
Arguments Known {A} a.

#[global] Instance value_GoZero {A} : GoZero (value A) := Null.
#[global] Instance value_eq_dec {A} `{EqDecision A} : EqDecision (value A).
Proof. solve_decision. Defined.

Definition get {A} `{GoZero A} (v : value A) : A :=
  match v with
  | Known a => a
  | _ => go_zero
  end.

Definition IsNull {A} (v : value A) : bool :=
  match v with Null => true | _ => false end.
Definition IsKnown {A} (v : value A) : bool :=
  match v with Known _ => true | _ => false end.

Definition StringValue (s : string) : value string := Known s.
Definition Int64Value (z : Z) : value Z := Known z.
Definition BoolValue (b : bool) : value bool := Known b.
Definition ValueString (v : value string) : string := get v.
Definition ValueInt64 (v : value Z) : Z := get v.
Definition ValueBool (v : value bool) : bool := get v.

Abbreviation String := (value string) (only parsing).
Abbreviation Int64 := (value Z) (only parsing).
Abbreviation Bool := (value bool) (only parsing).
End types.

(** Packages [int64validator] and [stringvalidator]: a validator decides a
    known value; the framework does not run it on a null or unknown value. *)
Module int64validator.
Definition OneOf (values : list Z) : Z → bool :=
  λ v, existsb (Z.eqb v) values.
Definition AtLeast (min : Z) : Z → bool :=
  λ v, min <=? v.
Definition Between (min max : Z) : Z → bool :=
  λ v, (min <=? v) && (v <=? max).
Definition Any (validators : list (Z → bool)) : Z → bool :=
  λ v, existsb (λ f, f v) validators.
End int64validator.

Module stringvalidator.
Definition OneOf (values : list string) : string → bool :=
  λ v, existsb (String.eqb v) values.
End stringvalidator.

Module schema.
Record StringAttribute : Type := mkString {
  sRequired : bool;
  sOptional : bool;
  sComputed : bool;
  sDefault : option string;
  sValidators : list (string → bool);
}.
Record Int64Attribute : Type := mkInt64 {
  iRequired : bool;
  iOptional : bool;
  iComputed : bool;
  iDefault : option Z;
  iValidators : list (Z → bool);
}.
Record BoolAttribute : Type := mkBool {
  bRequired : bool;
  bOptional : bool;
  bComputed : bool;
  bDefault : option bool;
}.
Record ListAttribute : Type := mkList {
  lRequired : bool;
  lOptional : bool;
  lComputed : bool;
  lDefault : option (list string);
}.
Inductive Attribute : Type :=
  | String (a : StringAttribute)
  | Int64 (a : Int64Attribute)
  | Bool (a : BoolAttribute)
  | List (a : ListAttribute).

Definition run_validators {A} (validators : list (A → bool))
    (v : types.value A) : bool :=
  match v with
  | types.Known a => forallb (λ f, f a) validators
  | _ => true
  end.

(** Does the value given for attribute [name] pass the validators that the
    schema [sch] attaches to it? *)
Definition validate_String (sch : gmap string Attribute) (name : string)
    (v : types.value string) : bool :=
  match sch !! name with
  | Some (String a) => run_validators (sValidators a) v
  | _ => false
  end.
Definition validate_Int64 (sch : gmap string Attribute) (name : string)
    (v : types.value Z) : bool :=
  match sch !! name with
  | Some (Int64 a) => run_validators (iValidators a) v
  | _ => false
  end.
End schema.

(** Package [diag]. [Append] skips a diagnostic that is already present. *)
Inductive Diagnostic : Type :=
  | ErrorDiagnostic (summary detail : string)
  | WarningDiagnostic (summary detail : string)
  | AttributeErrorDiagnostic (path summary detail : string).

#[export] Instance Diagnostic_eq_dec : EqDecision Diagnostic.
Proof. solve_decision. Defined.

Definition Diagnostics : Type := list Diagnostic.

Definition is_error (d : Diagnostic) : bool :=
  match d with
  | WarningDiagnostic _ _ => false
  | _ => true
  end.

Definition HasError (diags : Diagnostics) : bool := existsb is_error diags.

Definition Contains (diags : Diagnostics) (d : Diagnostic) : bool :=
  bool_decide (d ∈ diags).

Definition Append (diags : Diagnostics) (new : Diagnostics) : Diagnostics :=
  foldl (λ ds d, if Contains ds d then ds else ds ++ [d]) diags new.

(** Package [tfsdk]: a plan or state holds the resource object, or is null
    (no resource).  [Get] decodes the object into the model struct and fails
    on the null object; [Set_] (Go's [Set]) stores a model struct. *)
Module tfsdk.
Definition Data (M : Type) : Type := option M.

Definition Get {M} `{GoZero M} (d : Data M) : Diagnostics * M :=
  match d with
  | Some m => ([], m)
  | None =>
      ([ErrorDiagnostic "Value Conversion Error"
          "cannot decode a null object into the model struct"], go_zero)
  end.

Definition Set_ {M} (m : M) : Diagnostics * Data M := ([], Some m).

Definition RemoveResource {M} : Data M := None.
End tfsdk.

(** Package [resource]: requests and responses.  The response is the struct
    that the framework hands to the operation and the operation fills in. *)
Module resource.
Record CreateRequest (M : Type) : Type := mkCreateRequest {
  create_Plan : tfsdk.Data M;
}.
Record ReadRequest (M : Type) : Type := mkReadRequest {
  read_State : tfsdk.Data M;
}.
Record UpdateRequest (M : Type) : Type := mkUpdateRequest {
  update_Plan : tfsdk.Data M;
  update_State : tfsdk.Data M;
}.
Record DeleteRequest (M : Type) : Type := mkDeleteRequest {
  delete_State : tfsdk.Data M;
}.
Arguments create_Plan {M}.
Arguments read_State {M}.
Arguments update_Plan {M}.
Arguments update_State {M}.
Arguments delete_State {M}.

Record Response (M : Type) : Type := mkResponse {
  State : tfsdk.Data M;
  Diags : Diagnostics;
}.
Arguments mkResponse {M}.
Arguments State {M}.
Arguments Diags {M}.

Definition Diagnostics_Append {M} (resp : Response M) (new : Diagnostics)
    : Response M :=
  mkResponse (State resp) (Append (Diags resp) new).
Definition AddError {M} (resp : Response M) (summary detail : string)
    : Response M :=
  Diagnostics_Append resp [ErrorDiagnostic summary detail].
Definition AddWarning {M} (resp : Response M) (summary detail : string)
    : Response M :=
  Diagnostics_Append resp [WarningDiagnostic summary detail].
Definition AddAttributeError {M} (resp : Response M)
    (path summary detail : string) : Response M :=
  Diagnostics_Append resp [AttributeErrorDiagnostic path summary detail].

(** [resp.Diagnostics.Append(resp.State.Set(ctx, &data)...)] *)
Definition State_Set {M} (resp : Response M) (data : M) : Response M :=
  let '(diags, st) := tfsdk.Set_ data in
  Diagnostics_Append (mkResponse st (Diags resp)) diags.

Definition State_RemoveResource {M} (resp : Response M) : Response M :=
  mkResponse tfsdk.RemoveResource (Diags resp).

(** Import: the state under construction is a set of attribute values. *)
Record ImportStateRequest : Type := mkImportStateRequest { ID : string }.
Record ImportStateResponse : Type := mkImportStateResponse {
  import_State : gmap string string;
  import_Diags : Diagnostics;
}.

Definition SetAttribute (resp : ImportStateResponse) (path value : string)
    : ImportStateResponse :=
  mkImportStateResponse (<[path := value]> (import_State resp))
                        (import_Diags resp).
Definition import_AddError (resp : ImportStateResponse)
    (summary detail : string) : ImportStateResponse :=
  mkImportStateResponse (import_State resp)
    (Append (import_Diags resp) [ErrorDiagnostic summary detail]).

Definition ImportStatePassthroughID (attrPath : string)
    (req : ImportStateRequest) (resp : ImportStateResponse)
    : ImportStateResponse :=
  let resp :=
    if decide (attrPath = "") then
      import_AddError resp "Resource Import Passthrough Missing Attribute Path"
        "This is always an error in the provider."
    else resp in
  SetAttribute resp attrPath (ID req).
End resource.

(** Package [datasource]: a data source reads its arguments from the
    configuration and fills in the state. *)
Module datasource.
Record ReadRequest (M : Type) : Type := mkReadRequest {
  Config : tfsdk.Data M;
}.
Arguments Config {M}.
End datasource.

(** Package [provider] of the framework: the configuration of the provider
    itself, and the data it hands to its resources and data sources. *)
Module tfprovider.
Record ConfigureRequest (M : Type) : Type := mkConfigureRequest {
  Config : tfsdk.Data M;
}.
Arguments Config {M}.

Record ConfigureResponse (D : Type) : Type := mkConfigureResponse {
  DataSourceData : option D;
  ResourceData : option D;
  Diags : Diagnostics;
}.
Arguments mkConfigureResponse {D}.
Arguments DataSourceData {D}.
Arguments ResourceData {D}.
Arguments Diags {D}.
End tfprovider.

(** ** Go's [strings.Split] and slice indexing *)

(** [strings.Split(s, sep)] for a one-byte separator: the substrings between
    the occurrences of [sep]; one more element than there are occurrences. *)
Fixpoint strings_Split (s : string) (sep : ascii) : list string :=
  match s with
  | EmptyString => [""]
  | String.String c rest =>
      if decide (c = sep) then "" :: strings_Split rest sep
      else match strings_Split rest sep with
           | tok :: toks => String.String c tok :: toks
           | [] => [String.String c ""]
           end
  end.

(** A computation that may panic. *)
Inductive Outcome (A : Type) : Type :=
  | Done (a : A)
  | Panic (msg : string).
Arguments Done {A} a.
Arguments Panic {A} msg.

Definition obind {A B} (o : Outcome A) (f : A → Outcome B) : Outcome B :=
  match o with
  | Done a => f a
  | Panic msg => Panic msg
  end.

Declare Scope outcome_scope.
Delimit Scope outcome_scope with outcome.
Notation "'let!' x ':=' o 'in' f" := (obind o (λ x, f))
  (at level 10, x name, o at level 100, f at level 200) : outcome_scope.

(** [l[i]]: panics when [i] is out of range. *)
Definition index {A} (l : list A) (i : nat) : Outcome A :=
  match l !! i with
  | Some a => Done a
  | None => Panic "runtime error: index out of range"
  end.

(** ** Package internal/provider *)
Module provider.
Import natsgo nats.

(** *** utils.go *)

Definition infinityOrPositiveInt64Validator : Z → bool :=
  int64validator.Any [int64validator.OneOf [-1]; int64validator.AtLeast 1].

(** [convertSlice]: appends [fn elem] for every element, in order. *)
Definition convertSlice {S D} (l : list S) (fn : S → D) : list D :=
  foldl (λ out elem, out ++ [fn elem]) [] l.

(** *** stream_resource.go *)

Module streamResourceModel.
Record t : Type := mk {
  Name : types.String;
  Subjects : list types.String;
  Storage : types.String;
  NumReplicas : types.Int64;
  Retention : types.String;
  Discard : types.String;
  MaxMsgs : types.Int64;
  MaxConsumers : types.Int64;
  MaxBytes : types.Int64;
  MaxMsgsPerSubject : types.Int64;
  MaxMsgSize : types.Int64;
  MaxAge : types.Int64;
  DuplicateWindow : types.Int64;
  AllowDirect : types.Bool;
}.
End streamResourceModel.

#[global] Instance streamResourceModel_GoZero : GoZero streamResourceModel.t :=
  streamResourceModel.mk go_zero go_zero go_zero go_zero go_zero go_zero
    go_zero go_zero go_zero go_zero go_zero go_zero go_zero go_zero.

(** The attributes of [streamResource.Schema]. *)
Definition streamResource_Schema : gmap string schema.Attribute :=
  list_to_map [
    ("name", schema.String (schema.mkString true false false None []));
    ("subjects", schema.List (schema.mkList true false false None));
    ("storage", schema.String (schema.mkString false true true (Some "file")
       [stringvalidator.OneOf ["file"; "memory"]]));
    ("num_replicas", schema.Int64 (schema.mkInt64 false true true (Some 1)
       [int64validator.Between 1 5]));
    ("retention", schema.String (schema.mkString false true true (Some "limits")
       [stringvalidator.OneOf ["limits"; "interest"; "work"]]));
    ("discard", schema.String (schema.mkString false true true (Some "old")
       [stringvalidator.OneOf ["old"; "new"]]));
    ("max_msgs", schema.Int64 (schema.mkInt64 false true true (Some (-1))
       [infinityOrPositiveInt64Validator]));
    ("max_consumers", schema.Int64 (schema.mkInt64 false true true (Some (-1))
       [infinityOrPositiveInt64Validator]));
    ("max_bytes", schema.Int64 (schema.mkInt64 false true true (Some (-1))
       [infinityOrPositiveInt64Validator]));
    ("max_msgs_per_subject", schema.Int64 (schema.mkInt64 false true true
       (Some (-1)) [infinityOrPositiveInt64Validator]));
    ("max_msg_size", schema.Int64 (schema.mkInt64 false true true (Some (-1))
       [infinityOrPositiveInt64Validator]));
    ("max_age", schema.Int64 (schema.mkInt64 false true true (Some 0)
       [int64validator.AtLeast 0]));
    ("duplicate_window", schema.Int64 (schema.mkInt64 false true true
       (Some 120000000000) [infinityOrPositiveInt64Validator]));
    ("allow_direct", schema.Bool (schema.mkBool false true true (Some true)))
  ].

(** The model passes every validator of the stream schema. *)
Definition streamResource_validate (data : streamResourceModel.t) : bool :=
  let sch := streamResource_Schema in
  schema.validate_String sch "storage" (streamResourceModel.Storage data)
  && schema.validate_Int64 sch "num_replicas"
       (streamResourceModel.NumReplicas data)
  && schema.validate_String sch "retention"
       (streamResourceModel.Retention data)
  && schema.validate_String sch "discard" (streamResourceModel.Discard data)
  && schema.validate_Int64 sch "max_msgs" (streamResourceModel.MaxMsgs data)
  && schema.validate_Int64 sch "max_consumers"
       (streamResourceModel.MaxConsumers data)
  && schema.validate_Int64 sch "max_bytes" (streamResourceModel.MaxBytes data)
  && schema.validate_Int64 sch "max_msgs_per_subject"
       (streamResourceModel.MaxMsgsPerSubject data)
  && schema.validate_Int64 sch "max_msg_size"
       (streamResourceModel.MaxMsgSize data)
  && schema.validate_Int64 sch "max_age" (streamResourceModel.MaxAge data)
  && schema.validate_Int64 sch "duplicate_window"
       (streamResourceModel.DuplicateWindow data).

Definition toStreamConfig (data : streamResourceModel.t) : StreamConfig :=
  {| StreamConfig.Name :=
       types.ValueString (streamResourceModel.Name data);
     StreamConfig.Subjects :=
       convertSlice (streamResourceModel.Subjects data) types.ValueString;
     StreamConfig.Storage :=
       ToStorageType (types.ValueString (streamResourceModel.Storage data));
     StreamConfig.Replicas :=
       to_int (types.ValueInt64 (streamResourceModel.NumReplicas data));
     StreamConfig.Retention :=
       ToRetentionPolicy
         (types.ValueString (streamResourceModel.Retention data));
     StreamConfig.Discard :=
       ToDiscardPolicy (types.ValueString (streamResourceModel.Discard data));
     StreamConfig.MaxMsgs :=
       types.ValueInt64 (streamResourceModel.MaxMsgs data);
     StreamConfig.MaxConsumers :=
       to_int (types.ValueInt64 (streamResourceModel.MaxConsumers data));
     StreamConfig.MaxBytes :=
       types.ValueInt64 (streamResourceModel.MaxBytes data);
     StreamConfig.MaxMsgsPerSubject :=
       types.ValueInt64 (streamResourceModel.MaxMsgsPerSubject data);
     StreamConfig.MaxMsgSize :=
       to_int32 (types.ValueInt64 (streamResourceModel.MaxMsgSize data));
     StreamConfig.MaxAge :=
       to_int64 (types.ValueInt64 (streamResourceModel.MaxAge data));
     StreamConfig.Duplicates :=
       to_int64 (types.ValueInt64 (streamResourceModel.DuplicateWindow data));
     StreamConfig.AllowDirect :=
       types.ValueBool (streamResourceModel.AllowDirect data) |}.

Definition fromStreamInfo (streamInfo : StreamInfo) : streamResourceModel.t :=
  let cfg := StreamInfo.Config streamInfo in
  {| streamResourceModel.Name := types.StringValue (StreamConfig.Name cfg);
     streamResourceModel.Subjects :=
       convertSlice (StreamConfig.Subjects cfg) types.StringValue;
     streamResourceModel.Storage :=
       types.StringValue (FromStorageType (StreamConfig.Storage cfg));
     streamResourceModel.NumReplicas :=
       types.Int64Value (to_int64 (StreamConfig.Replicas cfg));
     streamResourceModel.Retention :=
       types.StringValue (FromRetentionPolicy (StreamConfig.Retention cfg));
     streamResourceModel.Discard :=
       types.StringValue (FromDiscardPolicy (StreamConfig.Discard cfg));
     streamResourceModel.MaxMsgs := types.Int64Value (StreamConfig.MaxMsgs cfg);
     streamResourceModel.MaxConsumers :=
       types.Int64Value (to_int64 (StreamConfig.MaxConsumers cfg));
     streamResourceModel.MaxBytes :=
       types.Int64Value (StreamConfig.MaxBytes cfg);
     streamResourceModel.MaxMsgsPerSubject :=
       types.Int64Value (StreamConfig.MaxMsgsPerSubject cfg);
     streamResourceModel.MaxMsgSize :=
       types.Int64Value (to_int64 (StreamConfig.MaxMsgSize cfg));
     streamResourceModel.MaxAge :=
       types.Int64Value (to_int64 (StreamConfig.MaxAge cfg));
     streamResourceModel.DuplicateWindow :=
       types.Int64Value (to_int64 (StreamConfig.Duplicates cfg));
     streamResourceModel.AllowDirect :=
       types.BoolValue (StreamConfig.AllowDirect cfg) |}.

Section stream_operations.
Import resource.
Abbreviation M := streamResourceModel.t.

Definition streamResource_Create (req : CreateRequest M) (resp : Response M)
    : Prog Client (Response M) :=
  (* 1. Read plan *)
  let '(diags, data) := tfsdk.Get (create_Plan req) in
  let resp := Diagnostics_Append resp diags in
  if HasError (Diags resp) then Ret resp else
  (* 2. Create the resource *)
  Call (CreateStream (toStreamConfig data)) (λ '(streamInfo, err),
    match err with
    | Some err =>
        Ret (AddError resp "Client error"
               ("Failed to create stream: " ++ Error err)%string)
    | None =>
        (* 3. Write state *)
        let data := fromStreamInfo streamInfo in
        Ret (State_Set resp data)
    end).

Definition streamResource_Read (req : ReadRequest M) (resp : Response M)
    : Prog Client (Response M) :=
  (* 1. Read current state *)
  let '(diags, data) := tfsdk.Get (read_State req) in
  let resp := Diagnostics_Append resp diags in
  if HasError (Diags resp) then Ret resp else
  (* 2. Get the resource *)
  Call (GetStream (types.ValueString (streamResourceModel.Name data)))
    (λ '(streamInfo, err),
    match err with
    | Some err =>
        if errors_Is err ErrNotFound then
          let resp := AddWarning resp "Resource not found"
            "couldn't find the stream, possibly deleted outside terraform" in
          Ret (State_RemoveResource resp)
        else
          Ret (AddError resp "Client error"
                 ("Failed to read stream: " ++ Error err)%string)
    | None =>
        (* 3. Write new state *)
        let data := fromStreamInfo streamInfo in
        Ret (State_Set resp data)
    end).

Definition streamResource_Update (req : UpdateRequest M) (resp : Response M)
    : Prog Client (Response M) :=
  (* 1. Read plan & current state *)
  let '(diags, plan) := tfsdk.Get (update_Plan req) in
  let resp := Diagnostics_Append resp diags in
  if HasError (Diags resp) then Ret resp else
  let '(diags, state) := tfsdk.Get (update_State req) in
  let resp := Diagnostics_Append resp diags in
  if HasError (Diags resp) then Ret resp else
  (* 2. Validate id is not changed *)
  if bool_decide
       (streamResourceModel.Name plan ≠ streamResourceModel.Name state)
  then
    Ret (AddAttributeError resp "name" "Cannot change stream name"
      "The stream is identified by its name. If you wish to change the name, you must create a new stream.")
  else
  (* 3. Update resource *)
  Call (UpdateStream (toStreamConfig plan)) (λ '(streamInfo, err),
    match err with
    | Some err =>
        Ret (AddError resp "Client error"
               ("Failed to update stream: " ++ Error err)%string)
    | None =>
        (* 3. Write new state *)
        let state := fromStreamInfo streamInfo in
        Ret (State_Set resp state)
    end).

Definition streamResource_Delete (req : DeleteRequest M) (resp : Response M)
    : Prog Client (Response M) :=
  (* 1. Read current state *)
  let '(diags, state) := tfsdk.Get (delete_State req) in
  let resp := Diagnostics_Append resp diags in
  if HasError (Diags resp) then Ret resp else
  (* 2. Delete the resource *)
  Call (DeleteStream (types.ValueString (streamResourceModel.Name state)))
    (λ err,
    match err with
    | Some err =>
        Ret (AddError resp "Client error"
               ("Failed to delete stream: " ++ Error err)%string)
    | None => Ret resp
    end).

End stream_operations.

(** *** consumer_resource.go *)

Module consumerResourceModel.
Record t : Type := mk {
  StreamName : types.String;
  Name : types.String;
  Mode : types.String;
  DeliverPolicy : types.String;
  AckPolicy : types.String;
  FilterSubjects : list types.String;
  (* Push-specific *)
  DeliverSubject : types.String;
  DeliverGroup : types.String;
}.
End consumerResourceModel.

#[global] Instance consumerResourceModel_GoZero
    : GoZero consumerResourceModel.t :=
  consumerResourceModel.mk go_zero go_zero go_zero go_zero go_zero go_zero
    go_zero go_zero.

Definition validateMode (data : consumerResourceModel.t) : option error :=
  if bool_decide (types.ValueString (consumerResourceModel.Mode data) = "pull")
     && negb (bool_decide
          (types.ValueString (consumerResourceModel.DeliverSubject data) = ""))
  then Some (ErrorString
    "Attribute 'deliver_subject' must not be set if 'mode' is 'pull'")
  else
  if bool_decide (types.ValueString (consumerResourceModel.Mode data) = "push")
     && bool_decide
          (types.ValueString (consumerResourceModel.DeliverSubject data) = "")
  then Some (ErrorString
    "Attribute 'deliver_subject' must be set if 'mode' is 'push'")
  else None.

Definition toConsumerConfig (data : consumerResourceModel.t)
    : result ConsumerConfig :=
  match validateMode data with
  | Some err => (go_zero, Some err)
  | None =>
    ({| ConsumerConfig.Name :=
          types.ValueString (consumerResourceModel.Name data);
        ConsumerConfig.Durable :=
          types.ValueString (consumerResourceModel.Name data);
        ConsumerConfig.DeliverPolicy :=
          ToDeliverPolicy
            (types.ValueString (consumerResourceModel.DeliverPolicy data));
        ConsumerConfig.AckPolicy :=
          ToAckPolicy
            (types.ValueString (consumerResourceModel.AckPolicy data));
        ConsumerConfig.FilterSubjects :=
          convertSlice (consumerResourceModel.FilterSubjects data)
                       types.ValueString;
        ConsumerConfig.DeliverSubject :=
          types.ValueString (consumerResourceModel.DeliverSubject data);
        ConsumerConfig.DeliverGroup :=
          types.ValueString (consumerResourceModel.DeliverGroup data) |},
     None)
  end.

Definition fromConsumerInfo (consumerInfo : ConsumerInfo)
    : consumerResourceModel.t :=
  let cfg := ConsumerInfo.Config consumerInfo in
  let mode :=
    if bool_decide (ConsumerConfig.DeliverSubject cfg ≠ "") then "push"
    else "pull" in
  {| consumerResourceModel.StreamName :=
       types.StringValue (ConsumerInfo.Stream consumerInfo);
     consumerResourceModel.Name :=
       types.StringValue (ConsumerInfo.Name consumerInfo);
     consumerResourceModel.Mode := types.StringValue mode;
     consumerResourceModel.DeliverPolicy :=
       types.StringValue (FromDeliverPolicy (ConsumerConfig.DeliverPolicy cfg));
     consumerResourceModel.AckPolicy :=
       types.StringValue (FromAckPolicy (ConsumerConfig.AckPolicy cfg));
     consumerResourceModel.FilterSubjects :=
       convertSlice (ConsumerConfig.FilterSubjects cfg) types.StringValue;
     consumerResourceModel.DeliverSubject :=
       types.StringValue (ConsumerConfig.DeliverSubject cfg);
     consumerResourceModel.DeliverGroup :=
       types.StringValue (ConsumerConfig.DeliverGroup cfg) |}.

Section consumer_operations.
Import resource.
Abbreviation M := consumerResourceModel.t.

Definition consumerResource_Create (req : CreateRequest M) (resp : Response M)
    : Prog Client (Response M) :=
  (* 1. Read plan *)
  let '(diags, data) := tfsdk.Get (create_Plan req) in
  let resp := Diagnostics_Append resp diags in
  if HasError (Diags resp) then Ret resp else
  (* 2. Create the resource *)
  let '(consumerConfig, err) := toConsumerConfig data in
  match err with
  | Some err => Ret (AddError resp "Validation error" (Error err))
  | None =>
  Call (CreateConsumer
          (types.ValueString (consumerResourceModel.StreamName data))
          consumerConfig) (λ '(consumerInfo, err),
    match err with
    | Some err =>
        Ret (AddError resp "Client error"
               ("Failed to create consumer: " ++ Error err)%string)
    | None =>
        (* 3. Write state *)
        let data := fromConsumerInfo consumerInfo in
        Ret (State_Set resp data)
    end)
  end.

Definition consumerResource_Read (req : ReadRequest M) (resp : Response M)
    : Prog Client (Response M) :=
  (* 1. Read current state *)
  let '(diags, data) := tfsdk.Get (read_State req) in
  let resp := Diagnostics_Append resp diags in
  if HasError (Diags resp) then Ret resp else
  (* 2. Get the resource *)
  Call (GetConsumer
          (types.ValueString (consumerResourceModel.StreamName data))
          (types.ValueString (consumerResourceModel.Name data)))
    (λ '(consumerInfo, err),
    match err with
    | Some err =>
        if errors_Is err ErrNotFound then
          let resp := AddWarning resp "Resource not found"
            "couldn't find the consumer, possibly deleted outside terraform" in
          Ret (State_RemoveResource resp)
        else
          Ret (AddError resp "Client error"
                 ("Failed to read consumer: " ++ Error err)%string)
    | None =>
        (* 3. Write new state *)
        let data := fromConsumerInfo consumerInfo in
        Ret (State_Set resp data)
    end).

Definition consumerResource_Update (req : UpdateRequest M) (resp : Response M)
    : Prog Client (Response M) :=
  (* 1. Read plan & current state *)
  let '(diags, plan) := tfsdk.Get (update_Plan req) in
  let resp := Diagnostics_Append resp diags in
  if HasError (Diags resp) then Ret resp else
  let '(diags, state) := tfsdk.Get (update_State req) in
  let resp := Diagnostics_Append resp diags in
  if HasError (Diags resp) then Ret resp else
  (* 2. Validate id is not changed *)
  if bool_decide (consumerResourceModel.Name plan
                    ≠ consumerResourceModel.Name state)
     || bool_decide (consumerResourceModel.StreamName plan
                       ≠ consumerResourceModel.StreamName state)
  then
    Ret (AddError resp "Cannot change consumer or stream name"
      "The consumer is identified by its name + stream name. If you wish to change the name, you must create a new consumer.")
  else
  (* 3. Update resource *)
  let '(consumerConfig, err) := toConsumerConfig plan in
  match err with
  | Some err => Ret (AddError resp "Validation error" (Error err))
  | None =>
  Call (UpdateConsumer
          (types.ValueString (consumerResourceModel.StreamName plan))
          consumerConfig) (λ '(consumerInfo, err),
    match err with
    | Some err =>
        Ret (AddError resp "Client error"
               ("Failed to update consumer: " ++ Error err)%string)
    | None =>
        (* 4. Write new state *)
        let state := fromConsumerInfo consumerInfo in
        Ret (State_Set resp state)
    end)
  end.

Definition consumerResource_Delete (req : DeleteRequest M) (resp : Response M)
    : Prog Client (Response M) :=
  (* 1. Read current state *)
  let '(diags, state) := tfsdk.Get (delete_State req) in
  let resp := Diagnostics_Append resp diags in
  if HasError (Diags resp) then Ret resp else
  (* 2. Delete the resource *)
  Call (DeleteConsumer
          (types.ValueString (consumerResourceModel.StreamName state))
          (types.ValueString (consumerResourceModel.Name state)))
    (λ err,
    match err with
    | Some err =>
        Ret (AddError resp "Client error"
               ("Failed to delete consumer: " ++ Error err)%string)
    | None => Ret resp
    end).

(** [ImportState].  The operands of [||] are evaluated left to right and only
    as far as needed.  There is no [return] after the error is reported: the
    two [SetAttribute] calls index [tokens] on every path. *)
Definition consumerResource_ImportState (req : ImportStateRequest)
    (resp : ImportStateResponse) : Outcome ImportStateResponse :=
  let resp := ImportStatePassthroughID "name" req resp in
  let tokens := strings_Split (ID req) "#"%char in
  (let! invalid :=
     if negb (bool_decide (length tokens = 2%nat)) then Done true
     else let! token0 := index tokens 0 in
          if bool_decide (token0 = "") then Done true
          else let! token1 := index tokens 1 in
               Done (bool_decide (token1 = "")) in
   let resp :=
     if (invalid : bool) then import_AddError resp "Invalid import id"
       "The import id must be of the format 'stream_name#consumer_name'"
     else resp in
   let! token0 := index tokens 0 in
   let resp := SetAttribute resp "stream_name" token0 in
   let! token1 := index tokens 1 in
   let resp := SetAttribute resp "name" token1 in
   Done resp)%outcome.

End consumer_operations.

(** The attributes of [consumerResource.Schema]. *)
Definition consumerResource_Schema : gmap string schema.Attribute :=
  list_to_map [
    ("stream_name", schema.String (schema.mkString true false false None []));
    ("name", schema.String (schema.mkString true false false None []));
    ("mode", schema.String (schema.mkString true false false None
       [stringvalidator.OneOf ["push"; "pull"]]));
    ("deliver_policy", schema.String (schema.mkString false true true
       (Some "all") [stringvalidator.OneOf ["all"; "new"; "last"]]));
    ("ack_policy", schema.String (schema.mkString false true true
       (Some "none") [stringvalidator.OneOf ["none"; "all"; "explicit"]]));
    ("filter_subjects", schema.List (schema.mkList false true true (Some [])));
    ("deliver_subject", schema.String (schema.mkString false true true
       (Some "") []));
    ("deliver_group", schema.String (schema.mkString false true true
       (Some "") []))
  ].

(** The model passes every validator of the consumer schema. *)
Definition consumerResource_validate (data : consumerResourceModel.t) : bool :=
  let sch := consumerResource_Schema in
  schema.validate_String sch "mode" (consumerResourceModel.Mode data)
  && schema.validate_String sch "deliver_policy"
       (consumerResourceModel.DeliverPolicy data)
  && schema.validate_String sch "ack_policy"
       (consumerResourceModel.AckPolicy data).

(** stream_resource.go: [ImportState] of the stream resource. *)
Definition streamResource_ImportState (req : resource.ImportStateRequest)
    (resp : resource.ImportStateResponse) : resource.ImportStateResponse :=
  resource.ImportStatePassthroughID "name" req resp.

(** *** stream_data_source.go *)

(** [streamDataSourceModel] is declared as [streamResourceModel]; the
    conversion between the two changes nothing. *)
Definition streamDataSourceModel : Type := streamResourceModel.t.

Definition streamDataSource_Read
    (req : datasource.ReadRequest streamDataSourceModel)
    (resp : resource.Response streamDataSourceModel)
    : Prog Client (resource.Response streamDataSourceModel) :=
  (* 1. Read config *)
  let '(diags, config) := tfsdk.Get (datasource.Config req) in
  let resp := resource.Diagnostics_Append resp diags in
  if HasError (resource.Diags resp) then Ret resp else
  (* 2. Read the resource *)
  let streamName := types.ValueString (streamResourceModel.Name config) in
  Call (GetStream streamName) (λ '(streamInfo, err),
    match err with
    | Some err =>
        Ret (resource.AddError resp "Client error"
               ("Failed to get stream: " ++ Error err)%string)
    | None =>
        (* 4. Write state *)
        let state : streamDataSourceModel := fromStreamInfo streamInfo in
        Ret (resource.State_Set resp state)
    end).

(** *** provider.go *)

Record natsProviderModel : Type := mknatsProviderModel {
  URL : types.String;
}.

#[global] Instance natsProviderModel_GoZero : GoZero natsProviderModel :=
  mknatsProviderModel go_zero.

(** [NatsProvider.Configure]; [env] is the environment of the process. *)
Definition NatsProvider_Configure (env : gmap string string)
    (req : tfprovider.ConfigureRequest natsProviderModel)
    (resp : tfprovider.ConfigureResponse client)
    : tfprovider.ConfigureResponse client :=
  let '(diags, config) := tfsdk.Get (tfprovider.Config req) in
  let resp :=
    tfprovider.mkConfigureResponse
      (tfprovider.DataSourceData resp) (tfprovider.ResourceData resp)
      (Append (tfprovider.Diags resp) diags) in
  if HasError (tfprovider.Diags resp) then resp else
  let url :=
    if negb (types.IsNull (URL config)) then types.ValueString (URL config)
    else if negb (bool_decide (os_Getenv env "NATS_URL" = ""))
    then os_Getenv env "NATS_URL"
    else "nats://localhost:4222" in
  let client := NewClient url in
  tfprovider.mkConfigureResponse (Some client) (Some client)
    (tfprovider.Diags resp).

End provider.

(** * Vocabulary of the properties *)

Section enum_mappings_vocabulary.
Import natsgo nats.

(** What "bidirectional" means for a map [m] with lookup functions [To]
    (strings to constants) and [From] (constants to strings). *)
Definition bidirectional (m : gmap string Z)
    (To : string → Z) (From : Z → string) : Prop :=
  (∀ s, is_Some (m !! s) → From (To s) = s) ∧
  (∀ v, (∃ s, m !! s = Some v) → To (From v) = v).

End enum_mappings_vocabulary.

Section stream_roundtrip_vocabulary.
Import natsgo nats provider.
Import streamResourceModel.

(** Every attribute of the model holds a known value. *)
Definition stream_known (m : streamResourceModel.t) : Prop :=
  types.IsKnown (Name m) = true ∧
  Forall (λ s, types.IsKnown s = true) (Subjects m) ∧
  types.IsKnown (Storage m) = true ∧
  types.IsKnown (NumReplicas m) = true ∧
  types.IsKnown (Retention m) = true ∧
  types.IsKnown (Discard m) = true ∧
  types.IsKnown (MaxMsgs m) = true ∧
  types.IsKnown (MaxConsumers m) = true ∧
  types.IsKnown (MaxBytes m) = true ∧
  types.IsKnown (MaxMsgsPerSubject m) = true ∧
  types.IsKnown (MaxMsgSize m) = true ∧
  types.IsKnown (MaxAge m) = true ∧
  types.IsKnown (DuplicateWindow m) = true ∧
  types.IsKnown (AllowDirect m) = true.

(** The [Int64] attributes hold Go [int64] values. *)
Definition stream_typed (m : streamResourceModel.t) : Prop :=
  is_int64 (types.ValueInt64 (NumReplicas m)) ∧
  is_int64 (types.ValueInt64 (MaxMsgs m)) ∧
  is_int64 (types.ValueInt64 (MaxConsumers m)) ∧
  is_int64 (types.ValueInt64 (MaxBytes m)) ∧
  is_int64 (types.ValueInt64 (MaxMsgsPerSubject m)) ∧
  is_int64 (types.ValueInt64 (MaxMsgSize m)) ∧
  is_int64 (types.ValueInt64 (MaxAge m)) ∧
  is_int64 (types.ValueInt64 (DuplicateWindow m)).

(** The server's answer when it stores the config as sent. *)
Definition echo (m : streamResourceModel.t) (created : Z) : StreamInfo :=
  StreamInfo.mk (toStreamConfig m) created.

(** A model that passes every validator and asks for messages of up to
    2^31 bytes. *)
Definition large_message_stream : streamResourceModel.t :=
  {| Name := types.StringValue "orders";
     Subjects := [types.StringValue "order.*"];
     Storage := types.StringValue "file";
     NumReplicas := types.Int64Value 1;
     Retention := types.StringValue "limits";
     Discard := types.StringValue "old";
     MaxMsgs := types.Int64Value (-1);
     MaxConsumers := types.Int64Value (-1);
     MaxBytes := types.Int64Value (-1);
     MaxMsgsPerSubject := types.Int64Value (-1);
     MaxMsgSize := types.Int64Value 2147483648;
     MaxAge := types.Int64Value 0;
     DuplicateWindow := types.Int64Value 120000000000;
     AllowDirect := types.BoolValue true |}.

(** A model with a null element in its list of subjects. *)
Definition null_subject_stream : streamResourceModel.t :=
  {| Name := types.StringValue "orders";
     Subjects := [types.Null];
     Storage := types.StringValue "file";
     NumReplicas := types.Int64Value 1;
     Retention := types.StringValue "limits";
     Discard := types.StringValue "old";
     MaxMsgs := types.Int64Value (-1);
     MaxConsumers := types.Int64Value (-1);
     MaxBytes := types.Int64Value (-1);
     MaxMsgsPerSubject := types.Int64Value (-1);
     MaxMsgSize := types.Int64Value (-1);
     MaxAge := types.Int64Value 0;
     DuplicateWindow := types.Int64Value 120000000000;
     AllowDirect := types.BoolValue true |}.

(** The stream of the README, with the schema's defaults filled in. *)
Definition orders_stream : streamResourceModel.t :=
  {| Name := types.StringValue "orders";
     Subjects := [types.StringValue "order.*"];
     Storage := types.StringValue "file";
     NumReplicas := types.Int64Value 1;
     Retention := types.StringValue "interest";
     Discard := types.StringValue "new";
     MaxMsgs := types.Int64Value (-1);
     MaxConsumers := types.Int64Value (-1);
     MaxBytes := types.Int64Value (-1);
     MaxMsgsPerSubject := types.Int64Value (-1);
     MaxMsgSize := types.Int64Value (-1);
     MaxAge := types.Int64Value 0;
     DuplicateWindow := types.Int64Value 120000000000;
     AllowDirect := types.BoolValue true |}.

End stream_roundtrip_vocabulary.

Section consumer_model_vocabulary.
Import natsgo nats provider resource.
Import consumerResourceModel.

(** The two inconsistent combinations of [mode] and [deliver_subject], on
    the strings that the code reads from the model. *)
Definition mode_mismatch (data : consumerResourceModel.t) : Prop :=
  (types.ValueString (Mode data) = "pull" ∧
   types.ValueString (DeliverSubject data) ≠ "") ∨
  (types.ValueString (Mode data) = "push" ∧
   types.ValueString (DeliverSubject data) = "").

(** The config that [toConsumerConfig] builds when the check passes. *)
Definition mapped_config (data : consumerResourceModel.t) : ConsumerConfig :=
  {| ConsumerConfig.Name := types.ValueString (Name data);
     ConsumerConfig.Durable := types.ValueString (Name data);
     ConsumerConfig.DeliverPolicy :=
       ToDeliverPolicy (types.ValueString (DeliverPolicy data));
     ConsumerConfig.AckPolicy :=
       ToAckPolicy (types.ValueString (AckPolicy data));
     ConsumerConfig.FilterSubjects :=
       map types.ValueString (FilterSubjects data);
     ConsumerConfig.DeliverSubject := types.ValueString (DeliverSubject data);
     ConsumerConfig.DeliverGroup := types.ValueString (DeliverGroup data) |}.

Definition push_without_subject : consumerResourceModel.t :=
  {| StreamName := types.StringValue "orders";
     Name := types.StringValue "new_order_consumer";
     Mode := types.StringValue "push";
     DeliverPolicy := types.StringValue "all";
     AckPolicy := types.StringValue "explicit";
     FilterSubjects := [types.StringValue "orders.created"];
     DeliverSubject := types.StringValue "";
     DeliverGroup := types.StringValue "" |}.

(** The consumer of the README, with the schema's defaults filled in. *)
Definition new_order_consumer : consumerResourceModel.t :=
  {| StreamName := types.StringValue "orders";
     Name := types.StringValue "new_order_consumer";
     Mode := types.StringValue "pull";
     DeliverPolicy := types.StringValue "all";
     AckPolicy := types.StringValue "explicit";
     FilterSubjects := [types.StringValue "orders.created"];
     DeliverSubject := types.StringValue "";
     DeliverGroup := types.StringValue "" |}.

Definition has_separator (s : string) : Prop :=
  In "#"%char (list_ascii_of_string s).

End consumer_model_vocabulary.

Section client_traces_vocabulary.
Import natsgo nats.

Definition lib_err {T} (r : LibResult T) : option error :=
  match r with
  | LibOk _ => None
  | LibErr err => Some err
  end.

(** The error with which the library call of an event failed, if it did. *)
Definition ev_failure (ev : Event NatsE) : option error :=
  match ev with
  | Ev e x =>
      match e in NatsE X return X → option error with
      | Connect _ => lib_err
      | Conn_Close _ => λ _, None
      | Conn_JetStream _ => λ r, r
      | js_StreamInfo _ _ => lib_err
      | js_AddStream _ _ => lib_err
      | js_UpdateStream _ _ => lib_err
      | js_DeleteStream _ _ => λ r, r
      | js_ConsumerInfo _ _ _ => lib_err
      | js_AddConsumer _ _ _ => lib_err
      | js_UpdateConsumer _ _ _ => lib_err
      | js_DeleteConsumer _ _ _ => λ r, r
      end x
  end.

(** The connection that a library call uses; [nats.Connect] uses none. *)
Definition call_conn {X} (e : NatsE X) : option Conn :=
  match e with
  | Connect _ => None
  | Conn_Close nc => Some nc
  | Conn_JetStream nc => Some nc
  | js_StreamInfo js _ => Some (js_nc js)
  | js_AddStream js _ => Some (js_nc js)
  | js_UpdateStream js _ => Some (js_nc js)
  | js_DeleteStream js _ => Some (js_nc js)
  | js_ConsumerInfo js _ _ => Some (js_nc js)
  | js_AddConsumer js _ _ => Some (js_nc js)
  | js_UpdateConsumer js _ _ => Some (js_nc js)
  | js_DeleteConsumer js _ _ => Some (js_nc js)
  end.

(** A JetStream request: one of the [js.*] API calls. *)
Definition is_request_call {X} (e : NatsE X) : bool :=
  match e with
  | Connect _ | Conn_Close _ | Conn_JetStream _ => false
  | _ => true
  end.

Definition is_request (ev : Event NatsE) : bool :=
  match ev with Ev e _ => is_request_call e end.

Definition is_connect (ev : Event NatsE) : bool :=
  match ev with Ev (Connect _) _ => true | _ => false end.

Definition connect_url (ev : Event NatsE) : option string :=
  match ev with Ev (Connect u) _ => Some u | _ => None end.

Definition is_close (ev : Event NatsE) : bool :=
  match ev with Ev (Conn_Close _) _ => true | _ => false end.

(** The connection that a successful [nats.Connect] event opened. *)
Definition opened (ev : Event NatsE) : option Conn :=
  match ev with
  | Ev e x =>
      match e in NatsE X return X → option Conn with
      | Connect _ => λ r, match r with LibOk nc => Some nc | _ => None end
      | _ => λ _, None
      end x
  end.

Definition closed (ev : Event NatsE) : option Conn :=
  match ev with Ev (Conn_Close nc) _ => Some nc | _ => None end.

Definition ev_conn (ev : Event NatsE) : option Conn :=
  match ev with Ev e _ => call_conn e end.

Fixpoint remove_one (nc : Conn) (l : list Conn) : list Conn :=
  match l with
  | [] => []
  | x :: l' => if Nat.eqb nc x then l' else x :: remove_one nc l'
  end.

(** The connections that are open after the events of [tr], when [open]
    were open before. *)
Fixpoint open_after (tr : list (Event NatsE)) (open : list Conn)
    : list Conn :=
  match tr with
  | [] => open
  | ev :: tr' =>
      let open :=
        match opened ev, closed ev with
        | Some nc, _ => nc :: open
        | None, Some nc => remove_one nc open
        | None, None => open
        end in
      open_after tr' open
  end.

(** Every call of [tr] that uses a connection uses one that is open at that
    point: one of [open], or one that [tr] itself opened before. *)
Fixpoint uses_open (tr : list (Event NatsE)) (open : list Conn) : bool :=
  match tr with
  | [] => true
  | ev :: tr' =>
      match ev_conn ev with
      | Some nc => existsb (Nat.eqb nc) open
      | None => true
      end
      && uses_open tr' (open_after [ev] open)
  end.

Definition count (f : Event NatsE → bool) (tr : list (Event NatsE)) : nat :=
  length (List.filter f tr).

(** The shape of the library calls of one invocation: one [nats.Connect], to
    the client's url and before anything else; at most one JetStream request;
    only the invocation's own connection is used, while it is open; when the
    connection was opened, the last call closes it (and nothing else is
    closed), and no connection is left open. *)
Record session (url : string) (tr : list (Event NatsE)) : Prop := {
  session_connect_first : connect_url <$> head tr = Some (Some url);
  session_one_connect : count is_connect tr = 1%nat;
  session_one_request : (count is_request tr ≤ 1)%nat;
  session_own_connection : uses_open tr [] = true;
  session_close_last :
    ∀ nc, head tr ≫= opened = Some nc →
          closed <$> last tr = Some (Some nc) ∧ count is_close tr = 1%nat;
  session_failed_connect :
    head tr ≫= opened = None → length tr = 1%nat;
  session_nothing_left_open : open_after tr [] = [];
}.

(** What a client method returned: its error, and its info value. *)
Definition call_error {X} (m : Client X) : X → option error :=
  match m with
  | GetStream _ | CreateStream _ | UpdateStream _ => snd
  | GetConsumer _ _ | CreateConsumer _ _ | UpdateConsumer _ _ => snd
  | DeleteStream _ | DeleteConsumer _ _ => λ err, err
  end.

Definition call_info {X} (m : Client X)
    : X → option (StreamInfo + ConsumerInfo) :=
  match m with
  | GetStream _ | CreateStream _ | UpdateStream _ => λ r, Some (inl (fst r))
  | GetConsumer _ _ | CreateConsumer _ _ | UpdateConsumer _ _ =>
      λ r, Some (inr (fst r))
  | DeleteStream _ | DeleteConsumer _ _ => λ _, None
  end.

(** The zero info value of a method that returns an info. *)
Definition zero_info {X} (m : Client X) : option (StreamInfo + ConsumerInfo) :=
  match m with
  | GetStream _ | CreateStream _ | UpdateStream _ => Some (inl go_zero)
  | GetConsumer _ _ | CreateConsumer _ _ | UpdateConsumer _ _ =>
      Some (inr go_zero)
  | DeleteStream _ | DeleteConsumer _ _ => None
  end.

Definition is_Get {X} (m : Client X) : bool :=
  match m with
  | GetStream _ | GetConsumer _ _ => true
  | _ => false
  end.

(** The info that the library returned in an event. *)
Definition ev_info (ev : Event NatsE) : option (StreamInfo + ConsumerInfo) :=
  match ev with
  | Ev e x =>
      match e in NatsE X return X → option (StreamInfo + ConsumerInfo) with
      | js_StreamInfo _ _ | js_AddStream _ _ | js_UpdateStream _ _ =>
          λ r, match r with LibOk info => Some (inl info) | _ => None end
      | js_ConsumerInfo _ _ _ | js_AddConsumer _ _ _
      | js_UpdateConsumer _ _ _ =>
          λ r, match r with LibOk info => Some (inr info) | _ => None end
      | _ => λ _, None
      end x
  end.

(** The info that the library returned in the course of a trace. *)
Definition trace_info (tr : list (Event NatsE))
    : option (StreamInfo + ConsumerInfo) :=
  head (omap ev_info tr).

(** The first failure among the library calls of a trace, and the failure
    of its JetStream request. *)
Definition first_failure (tr : list (Event NatsE)) : option error :=
  head (omap ev_failure tr).

Definition request_failure (tr : list (Event NatsE)) : option error :=
  head (omap (λ ev, if is_request ev then ev_failure ev else None) tr).

(** The name of the [js.*] method of a request. *)
Definition request_method (ev : Event NatsE) : option string :=
  match ev with
  | Ev e _ =>
      match e with
      | js_StreamInfo _ _ => Some "StreamInfo"
      | js_AddStream _ _ => Some "AddStream"
      | js_UpdateStream _ _ => Some "UpdateStream"
      | js_DeleteStream _ _ => Some "DeleteStream"
      | js_ConsumerInfo _ _ _ => Some "ConsumerInfo"
      | js_AddConsumer _ _ _ => Some "AddConsumer"
      | js_UpdateConsumer _ _ _ => Some "UpdateConsumer"
      | js_DeleteConsumer _ _ _ => Some "DeleteConsumer"
      | _ => None
      end
  end.

(** The [js.*] method that stands behind each client method. *)
Definition library_method {X} (m : Client X) : string :=
  match m with
  | GetStream _ => "StreamInfo"
  | CreateStream _ => "AddStream"
  | UpdateStream _ => "UpdateStream"
  | DeleteStream _ => "DeleteStream"
  | GetConsumer _ _ => "ConsumerInfo"
  | CreateConsumer _ _ => "AddConsumer"
  | UpdateConsumer _ _ => "UpdateConsumer"
  | DeleteConsumer _ _ => "DeleteConsumer"
  end.

(** A library behaviour: the server is reachable and knows no stream. *)
Definition no_such_stream (X : Type) (e : NatsE X) (next : nat) : X * nat :=
  match e with
  | Connect _ => (LibOk next, S next)
  | Conn_Close _ => (tt, next)
  | Conn_JetStream _ => (None, next)
  | js_StreamInfo _ _ => (LibErr ErrStreamNotFound, next)
  | js_AddStream _ cfg => (LibOk (StreamInfo.mk cfg 0), next)
  | js_UpdateStream _ _ => (LibErr ErrStreamNotFound, next)
  | js_DeleteStream _ _ => (Some ErrStreamNotFound, next)
  | js_ConsumerInfo _ _ _ => (LibErr ErrStreamNotFound, next)
  | js_AddConsumer _ _ _ => (LibErr ErrStreamNotFound, next)
  | js_UpdateConsumer _ _ _ => (LibErr ErrStreamNotFound, next)
  | js_DeleteConsumer _ _ _ => (Some ErrStreamNotFound, next)
  end.

End client_traces_vocabulary.

Section resource_operations_vocabulary.
Import natsgo nats provider resource.

(** [p] makes exactly the client call [m], whatever the answer is, and what
    it returns is related to the answer by [post]. *)
Definition calls_once {X R} (p : Prog Client R) (m : Client X)
    (post : X → R → Prop) : Prop :=
  (∀ tr r, runs p tr r → ∃ ans, tr = [Ev m ans] ∧ post ans r) ∧
  (∀ ans, ∃ r, runs p [Ev m ans] r).

(** The framework hands over a response without error diagnostics. *)
Definition fresh {M} (resp : Response M) : Prop :=
  HasError (Diags resp) = false.

(** After a successful call: the state is the given model, the diagnostics
    are as before. *)
Definition wrote {M} (resp r : Response M) (data : M) : Prop :=
  State r = Some data ∧ Diags r = Diags resp.

(** After a failed call: an error diagnostic with the client's message, and
    the state as before. *)
Definition reported {M} (resp r : Response M) (summary detail : string)
    : Prop :=
  State r = State resp ∧
  In (ErrorDiagnostic summary detail) (Diags r) ∧
  HasError (Diags r) = true.

(** After a resource was not found: a warning, no error, and no state. *)
Definition removed {M} (r : Response M) (detail : string) : Prop :=
  State r = None ∧
  In (WarningDiagnostic "Resource not found" detail) (Diags r) ∧
  HasError (Diags r) = false.

(** The response of an operation whose call succeeded with an info. *)
Definition info_post {M I} (from : I → M) (resp : Response M)
    (ans : result I) (r : Response M) : Prop :=
  snd ans = None → wrote resp r (from (fst ans)).

(** The response of a [Delete] whose call succeeded: nothing is written. *)
Definition done_post {M} (resp : Response M)
    (ans : option error) (r : Response M) : Prop :=
  ans = None → r = resp.

(** The response of [Create] and [Update], on success and on failure. *)
Definition call_post {M I} (from : I → M) (failed : string)
    (resp : Response M) (ans : result I) (r : Response M) : Prop :=
  match snd ans with
  | Some err => reported resp r "Client error" (failed ++ Error err)%string
  | None => wrote resp r (from (fst ans))
  end.

(** The response of [Delete], on success and on failure. *)
Definition delete_post {M} (failed : string)
    (resp : Response M) (ans : option error) (r : Response M) : Prop :=
  match ans with
  | Some err => reported resp r "Client error" (failed ++ Error err)%string
  | None => r = resp
  end.

(** The three outcomes of a [Read]. *)
Definition read_post {M I} (from : I → M) (not_found failed : string)
    (resp : Response M) (ans : result I) (r : Response M) : Prop :=
  match snd ans with
  | Some err =>
      if errors_Is err ErrNotFound then removed r not_found
      else reported resp r "Client error" (failed ++ Error err)%string
  | None => wrote resp r (from (fst ans))
  end.

(** The eight operations, each with the client call it makes once its plan
    or state is read and its local checks pass; [post] says what is known of
    the response. *)
Section calls.
Abbreviation Stream := streamResourceModel.t.
Abbreviation Consumer := consumerResourceModel.t.

Definition stream_Create_calls
    (post : Response Stream → result StreamInfo → Response Stream → Prop)
    : Prop :=
  ∀ req resp data,
    create_Plan req = Some data → fresh resp →
    calls_once (streamResource_Create req resp)
      (CreateStream (toStreamConfig data)) (post resp).

Definition stream_Read_calls
    (post : Response Stream → result StreamInfo → Response Stream → Prop)
    : Prop :=
  ∀ req resp data,
    read_State req = Some data → fresh resp →
    calls_once (streamResource_Read req resp)
      (GetStream (types.ValueString (streamResourceModel.Name data)))
      (post resp).

Definition stream_Update_calls
    (post : Response Stream → result StreamInfo → Response Stream → Prop)
    : Prop :=
  ∀ req resp plan state,
    update_Plan req = Some plan → update_State req = Some state →
    fresh resp →
    streamResourceModel.Name plan = streamResourceModel.Name state →
    calls_once (streamResource_Update req resp)
      (UpdateStream (toStreamConfig plan)) (post resp).

Definition stream_Delete_calls
    (post : Response Stream → option error → Response Stream → Prop)
    : Prop :=
  ∀ req resp state,
    delete_State req = Some state → fresh resp →
    calls_once (streamResource_Delete req resp)
      (DeleteStream (types.ValueString (streamResourceModel.Name state)))
      (post resp).

Definition consumer_Create_calls
    (post : Response Consumer → result ConsumerInfo → Response Consumer → Prop)
    : Prop :=
  ∀ req resp data,
    create_Plan req = Some data → fresh resp →
    validateMode data = None →
    calls_once (consumerResource_Create req resp)
      (CreateConsumer
         (types.ValueString (consumerResourceModel.StreamName data))
         (fst (toConsumerConfig data)))
      (post resp).

Definition consumer_Read_calls
    (post : Response Consumer → result ConsumerInfo → Response Consumer → Prop)
    : Prop :=
  ∀ req resp data,
    read_State req = Some data → fresh resp →
    calls_once (consumerResource_Read req resp)
      (GetConsumer
         (types.ValueString (consumerResourceModel.StreamName data))
         (types.ValueString (consumerResourceModel.Name data)))
      (post resp).

Definition consumer_Update_calls
    (post : Response Consumer → result ConsumerInfo → Response Consumer → Prop)
    : Prop :=
  ∀ req resp plan state,
    update_Plan req = Some plan → update_State req = Some state →
    fresh resp →
    consumerResourceModel.Name plan = consumerResourceModel.Name state →
    consumerResourceModel.StreamName plan
      = consumerResourceModel.StreamName state →
    validateMode plan = None →
    calls_once (consumerResource_Update req resp)
      (UpdateConsumer
         (types.ValueString (consumerResourceModel.StreamName plan))
         (fst (toConsumerConfig plan)))
      (post resp).

Definition consumer_Delete_calls
    (post : Response Consumer → option error → Response Consumer → Prop)
    : Prop :=
  ∀ req resp state,
    delete_State req = Some state → fresh resp →
    calls_once (consumerResource_Delete req resp)
      (DeleteConsumer
         (types.ValueString (consumerResourceModel.StreamName state))
         (types.ValueString (consumerResourceModel.Name state)))
      (post resp).
End calls.

(** A client whose server has lost every stream and consumer. *)
Definition all_gone (X : Type) (m : Client X) (s : unit) : X * unit :=
  match m with
  | GetStream _ => ((go_zero, Some ErrNotFound), s)
  | CreateStream _ => ((go_zero, Some (ErrorString "unavailable")), s)
  | UpdateStream _ => ((go_zero, Some (ErrorString "unavailable")), s)
  | DeleteStream _ => (Some (ErrorString "unavailable"), s)
  | GetConsumer _ _ => ((go_zero, Some ErrNotFound), s)
  | CreateConsumer _ _ => ((go_zero, Some (ErrorString "unavailable")), s)
  | UpdateConsumer _ _ => ((go_zero, Some (ErrorString "unavailable")), s)
  | DeleteConsumer _ _ => (Some (ErrorString "unavailable"), s)
  end.

End resource_operations_vocabulary.

Section further_vocabulary.
Import natsgo nats provider resource.

(** The default of an attribute, if it has one, passes the validators of
    the attribute. *)
Definition default_passes (a : schema.Attribute) : bool :=
  match a with
  | schema.String a =>
      match schema.sDefault a with
      | Some d => forallb (λ f, f d) (schema.sValidators a)
      | None => true
      end
  | schema.Int64 a =>
      match schema.iDefault a with
      | Some d => forallb (λ f, f d) (schema.iValidators a)
      | None => true
      end
  | schema.Bool _ => true
  | schema.List _ => true
  end.

(** Every attribute of the consumer model holds a known value. *)
Definition consumer_known (m : consumerResourceModel.t) : Prop :=
  types.IsKnown (consumerResourceModel.StreamName m) = true ∧
  types.IsKnown (consumerResourceModel.Name m) = true ∧
  types.IsKnown (consumerResourceModel.Mode m) = true ∧
  types.IsKnown (consumerResourceModel.DeliverPolicy m) = true ∧
  types.IsKnown (consumerResourceModel.AckPolicy m) = true ∧
  Forall (λ s, types.IsKnown s = true)
    (consumerResourceModel.FilterSubjects m) ∧
  types.IsKnown (consumerResourceModel.DeliverSubject m) = true ∧
  types.IsKnown (consumerResourceModel.DeliverGroup m) = true.

(** The server's answer when it stores the consumer config as sent. *)
Definition consumer_echo (m : consumerResourceModel.t) (created : Z)
    : ConsumerInfo :=
  ConsumerInfo.mk
    (types.ValueString (consumerResourceModel.StreamName m))
    (types.ValueString (consumerResourceModel.Name m))
    (fst (toConsumerConfig m)) created.



(** A run makes at most one call. *)
Definition at_most_one_call {E R} (p : Prog E R) : Prop :=
  ∀ tr r, runs p tr r → (length tr ≤ 1)%nat.

(** No error of the library is, or wraps, the sentinel of this package. *)
Definition library_errors (tr : list (Event NatsE)) : Prop :=
  ∀ ev err, In ev tr → ev_failure ev = Some err →
            errors_Is err ErrNotFound = false.

End further_vocabulary.

Section guards_vocabulary.
Import natsgo nats provider resource.

(** The operation [op] makes no call and leaves the state alone when the
    response already has an error or the data that [get] selects is null. *)
Definition skips {Req M} `{GoZero M} (get : Req → tfsdk.Data M)
    (op : Req → Response M → Prog Client (Response M)) : Prop :=
  ∀ req resp tr r,
    HasError (Diags resp) = true ∨ get req = None →
    runs (op req resp) tr r →
    tr = [] ∧ State r = State resp ∧ HasError (Diags r) = true.

(** The stream of the README under another name. *)
Definition renamed_stream : streamResourceModel.t :=
  {| streamResourceModel.Name := types.StringValue "orders_v2";
     streamResourceModel.Subjects := [types.StringValue "order.*"];
     streamResourceModel.Storage := types.StringValue "file";
     streamResourceModel.NumReplicas := types.Int64Value 1;
     streamResourceModel.Retention := types.StringValue "interest";
     streamResourceModel.Discard := types.StringValue "new";
     streamResourceModel.MaxMsgs := types.Int64Value (-1);
     streamResourceModel.MaxConsumers := types.Int64Value (-1);
     streamResourceModel.MaxBytes := types.Int64Value (-1);
     streamResourceModel.MaxMsgsPerSubject := types.Int64Value (-1);
     streamResourceModel.MaxMsgSize := types.Int64Value (-1);
     streamResourceModel.MaxAge := types.Int64Value 0;
     streamResourceModel.DuplicateWindow := types.Int64Value 120000000000;
     streamResourceModel.AllowDirect := types.BoolValue true |}.

(** The operation [op] only ever adds to the diagnostics it was given. *)
Definition keeps_diagnostics {Req M}
    (op : Req → Response M → Prog Client (Response M)) : Prop :=
  ∀ req resp tr r,
    runs (op req resp) tr r → Diags resp `prefix_of` Diags r.

End guards_vocabulary.

Section composition_vocabulary.

(** [expands h hi segments]: the calls [hi] of the upper interface, each
    carried out by a run of the call tree [h], gave the segments of calls of
    the lower interface, one segment per upper call. *)
Inductive expands {E F} (h : ∀ X, E X → Prog F X)
    : list (Event E) → list (list (Event F)) → Prop :=
  | expands_nil : expands h [] []
  | expands_cons {X} (e : E X) (x : X) hi lo segments :
      runs (h X e) lo x → expands h hi segments →
      expands h (Ev e x :: hi) (lo :: segments).

End composition_vocabulary.

(** * Properties *)

(** ** Integer conversions *)

Lemma wrap_signed_id bits z :
  0 < bits → in_signed bits z → wrap_signed bits z = z.
Proof.
  intros Hb [Hlo Hhi]. unfold wrap_signed.
  assert (H2 : 2 ^ bits = 2 * 2 ^ (bits - 1)).
  { replace bits with (Z.succ (bits - 1)) at 1 by lia.
    rewrite Z.pow_succ_r by lia. reflexivity. }
  rewrite Z.mod_small by lia. lia.
Qed.

Lemma in_signed_32_64 z : is_int32 z → is_int64 z.
Proof. unfold in_signed. simpl. lia. Qed.

(** ** [invertMap] and [mapFn] *)

Section invertMap_facts.

Context {A B : Type} `{Countable A, Countable B}.

Lemma map_injective_insert (m : gmap A B) i x :
  m !! i = None → map_injective (<[i := x]> m) →
  map_injective m ∧ (∀ k, m !! k ≠ Some x).
Proof.
  intros Hi Hinj. split.
  - intros k1 k2 v H1 H2. apply (Hinj k1 k2 v).
    + rewrite lookup_insert_ne; [done | congruence].
    + rewrite lookup_insert_ne; [done | congruence].
  - intros k Hk.
    assert (k = i) as ->; [| congruence].
    apply (Hinj k i x).
    + rewrite lookup_insert_ne; [done | congruence].
    + apply lookup_insert_eq.
Qed.

(** On an invertible map, [invertMap] is the converse relation, whatever
    the iteration order was. *)
Lemma invertMap_lookup (m : gmap A B) :
  map_injective m →
  ∀ k v, invertMap m !! v = Some k ↔ m !! k = Some v.
Proof.
  unfold invertMap.
  apply (map_fold_weak_ind
           (λ (r : gmap B A) (m : gmap A B),
              map_injective m → ∀ k v, r !! v = Some k ↔ m !! k = Some v)).
  - intros _ k v. rewrite !lookup_empty. split; discriminate.
  - intros i x m0 r Hi IH Hinj k v.
    destruct (map_injective_insert m0 i x Hi Hinj) as [Hinj0 Hfresh].
    specialize (IH Hinj0).
    destruct (decide (v = x)) as [-> | Hv].
    + rewrite lookup_insert_eq. split.
      * intros [= <-]. apply lookup_insert_eq.
      * intros Hk. destruct (decide (k = i)) as [-> | Hne]; [done |].
        rewrite lookup_insert_ne in Hk by done. by destruct (Hfresh k).
    + rewrite lookup_insert_ne by done. rewrite IH. split.
      * intros Hk. rewrite lookup_insert_ne; [done | congruence].
      * intros Hk. destruct (decide (i = k)) as [-> | Hne].
        -- rewrite lookup_insert_eq in Hk. congruence.
        -- by rewrite lookup_insert_ne in Hk.
Qed.

Lemma foldl_insert_lookup (entries : list (A * B)) (acc : gmap B A) :
  NoDup (entries.*2) →
  ∀ k v, (foldl (λ out kv, <[kv.2 := kv.1]> out) acc entries !! v = Some k)
         ↔ (k, v) ∈ entries ∨ (v ∉ entries.*2 ∧ acc !! v = Some k).
Proof.
  revert acc. induction entries as [| [k0 v0] es IH]; intros acc Hnd k v.
  - simpl. split; [intros Hk; right; split; [set_solver | done] |].
    intros [Hin | [_ Hk]]; [by apply elem_of_nil in Hin | done].
  - simpl in *. apply NoDup_cons in Hnd as [Hfresh Hnd].
    rewrite (IH _ Hnd), elem_of_cons, not_elem_of_cons.
    destruct (decide (v = v0)) as [-> | Hv].
    + rewrite lookup_insert_eq. split.
      * intros [Hin | [_ [= ->]]]; [| by left; left].
        exfalso. apply Hfresh. apply list_elem_of_fmap. by exists (k, v0).
      * intros [[[= -> ] | Hin] | [[Hne _] _]]; [by right | by left | done].
    + rewrite lookup_insert_ne by done. split.
      * intros [Hin | [Hnotin Hk]]; [by left; right | by right].
      * intros [[[= -> ->] | Hin] | [[_ Hnotin] Hk]];
          [done | by left | by right].
Qed.

(** Go does not fix the order in which [range] visits a map.  On an
    invertible map the result of [invertMap] is the same for every order. *)
Lemma invertMap_order_irrelevant (m : gmap A B) (entries : list (A * B)) :
  map_injective m → entries ≡ₚ map_to_list m →
  invertMap_in_order entries = invertMap m.
Proof.
  intros Hinj Hperm. apply map_eq. intros v. apply option_eq. intros k.
  rewrite (invertMap_lookup m Hinj). unfold invertMap_in_order.
  rewrite foldl_insert_lookup.
  - rewrite lookup_empty, Hperm, elem_of_map_to_list.
    split; [intros [Hk | [_ Hk]]; done | by left].
  - rewrite Hperm. apply NoDup_fmap_2_strong; [| apply NoDup_map_to_list].
    intros [k1 v1] [k2 v2] H1%elem_of_map_to_list H2%elem_of_map_to_list.
    simpl. intros ->. f_equal. by eapply Hinj.
Qed.

Context `{GoZero A, GoZero B}.

Lemma mapFn_invert_To (m : gmap A B) k :
  map_injective m → is_Some (m !! k) →
  mapFn (invertMap m) (mapFn m k) = k.
Proof.
  intros Hinj [v Hv]. unfold mapFn at 2. rewrite Hv. simpl.
  unfold mapFn. apply (invertMap_lookup m Hinj) in Hv. by rewrite Hv.
Qed.

Lemma mapFn_invert_From (m : gmap A B) v :
  map_injective m → is_Some (invertMap m !! v) →
  mapFn m (mapFn (invertMap m) v) = v.
Proof.
  intros Hinj [k Hk]. unfold mapFn at 2. rewrite Hk. simpl.
  unfold mapFn. apply (invertMap_lookup m Hinj) in Hk. by rewrite Hk.
Qed.

Lemma mapFn_missing (m : gmap A B) k :
  m !! k = None → mapFn m k = go_zero.
Proof. intros Hk. unfold mapFn. by rewrite Hk. Qed.

End invertMap_facts.

(** ** The string-enum mappings *)

Section enum_mappings.
Import natsgo nats.

Lemma bidirectional_invertMap (m : gmap string Z) :
  map_injective m → bidirectional m (mapFn m) (mapFn (invertMap m)).
Proof.
  intros Hinj. split.
  - intros s Hs. by apply mapFn_invert_To.
  - intros v [s Hs]. apply mapFn_invert_From; [done |].
    exists s. by apply invertMap_lookup.
Qed.

Ltac solve_map_injective :=
  intros k1 k2 v H1 H2;
  repeat match goal with
    | H : <[_ := _]> _ !! _ = Some _ |- _ =>
        apply lookup_insert_Some in H as [[? ?] | [? H]]
    | H : ∅ !! _ = Some _ |- _ => by rewrite lookup_empty in H
    end;
  subst; first [done | discriminate | congruence].

Lemma storageType_injective : map_injective storageType.
Proof. unfold storageType. solve_map_injective. Qed.
Lemma discardPolicy_injective : map_injective discardPolicy.
Proof. unfold discardPolicy. solve_map_injective. Qed.
Lemma retentionPolicy_injective : map_injective retentionPolicy.
Proof. unfold retentionPolicy. solve_map_injective. Qed.
Lemma ackPolicy_injective : map_injective ackPolicy.
Proof. unfold ackPolicy. solve_map_injective. Qed.
Lemma deliverPolicy_injective : map_injective deliverPolicy.
Proof. unfold deliverPolicy. solve_map_injective. Qed.

(** The domains and ranges of the five maps. *)
Lemma enum_domains :
  dom storageType = {["file"; "memory"]} ∧
  dom discardPolicy = {["old"; "new"]} ∧
  dom retentionPolicy = {["limits"; "interest"; "work"]} ∧
  dom ackPolicy = {["none"; "all"; "explicit"]} ∧
  dom deliverPolicy = {["all"; "new"; "last"]}.
Proof.
  unfold storageType, discardPolicy, retentionPolicy, ackPolicy, deliverPolicy.
  rewrite !dom_insert_L, !dom_empty_L. repeat split; set_solver.
Qed.

(** C2. Each of the five string-enum mappings is bidirectional: on every
    string of the map's domain, [To] followed by [From] gives the string back;
    on every constant of the map's range, [From] followed by [To] gives the
    constant back. *)
Theorem enum_mappings_bidirectional :
  bidirectional storageType ToStorageType FromStorageType ∧
  bidirectional discardPolicy ToDiscardPolicy FromDiscardPolicy ∧
  bidirectional retentionPolicy ToRetentionPolicy FromRetentionPolicy ∧
  bidirectional ackPolicy ToAckPolicy FromAckPolicy ∧
  bidirectional deliverPolicy ToDeliverPolicy FromDeliverPolicy.
Proof.
  split_and!;
    first [ apply bidirectional_invertMap, storageType_injective
          | apply bidirectional_invertMap, discardPolicy_injective
          | apply bidirectional_invertMap, retentionPolicy_injective
          | apply bidirectional_invertMap, ackPolicy_injective
          | apply bidirectional_invertMap, deliverPolicy_injective ].
Qed.

(** The round trips of C2 at the retention strings and constants. *)
Lemma enum_mappings_bidirectional_witness :
  FromRetentionPolicy (ToRetentionPolicy "interest") = "interest" ∧
  ToRetentionPolicy (FromRetentionPolicy WorkQueuePolicy) = WorkQueuePolicy.
Proof.
  destruct enum_mappings_bidirectional as (_ & _ & [Hto Hfrom] & _).
  split.
  - apply Hto. exists InterestPolicy. reflexivity.
  - apply Hfrom. exists "work". reflexivity.
Defined.

(** C9. A string outside a map's domain is mapped to the zero value of the
    enum type, which is the first constant of the enum; the result carries no
    sign that the string was unknown. *)
Theorem unknown_enum_string_maps_to_zero_value (s : string) :
  (storageType !! s = None → ToStorageType s = FileStorage) ∧
  (discardPolicy !! s = None → ToDiscardPolicy s = DiscardOld) ∧
  (retentionPolicy !! s = None → ToRetentionPolicy s = LimitsPolicy) ∧
  (ackPolicy !! s = None → ToAckPolicy s = AckNonePolicy) ∧
  (deliverPolicy !! s = None → ToDeliverPolicy s = DeliverAllPolicy).
Proof.
  split_and!; intros Hs;
    unfold ToStorageType, ToDiscardPolicy, ToRetentionPolicy, ToAckPolicy,
           ToDeliverPolicy;
    rewrite (mapFn_missing _ _ Hs); reflexivity.
Qed.

Lemma unknown_enum_string_witness :
  ToStorageType "disk" = FileStorage ∧
  ToDiscardPolicy "disk" = DiscardOld ∧
  ToRetentionPolicy "disk" = LimitsPolicy ∧
  ToAckPolicy "disk" = AckNonePolicy ∧
  ToDeliverPolicy "disk" = DeliverAllPolicy.
Proof.
  destruct (unknown_enum_string_maps_to_zero_value "disk")
    as (H1 & H2 & H3 & H4 & H5).
  split_and!;
    [apply H1 | apply H2 | apply H3 | apply H4 | apply H5]; reflexivity.
Defined.

(** An unknown string and the first string of the domain are not told apart. *)
Lemma unknown_enum_string_collides :
  ToStorageType "disk" = ToStorageType "file" ∧
  FromStorageType (ToStorageType "disk") = "file".
Proof. split; reflexivity. Qed.

End enum_mappings.

(** ** Validators *)

Section validators.
Import provider.

Lemma streamResource_Schema_lookup_int64 name a :
  streamResource_Schema !! name = Some (schema.Int64 a) →
  ∀ v, schema.validate_Int64 streamResource_Schema name (types.Int64Value v)
       = forallb (λ f, f v) (schema.iValidators a).
Proof. intros H v. unfold schema.validate_Int64. rewrite H. reflexivity. Qed.

Lemma infinityOrPositive_spec (v : Z) :
  infinityOrPositiveInt64Validator v = true ↔ v = -1 ∨ 1 <= v.
Proof.
  unfold infinityOrPositiveInt64Validator, int64validator.Any,
    int64validator.OneOf, int64validator.AtLeast. simpl.
  rewrite !orb_false_r, orb_true_iff, Z.eqb_eq, Z.leb_le. reflexivity.
Qed.

(** C7. The range-check validators: [infinityOrPositiveInt64Validator]
    accepts exactly -1 and the values from 1 on; the stream schema accepts
    [num_replicas] exactly between 1 and 5 and [max_age] exactly from 0 on. *)
Theorem range_check_validators (v : Z) :
  (infinityOrPositiveInt64Validator v = true ↔ v = -1 ∨ 1 <= v) ∧
  (infinityOrPositiveInt64Validator 0 = false ∧
   (v < -1 → infinityOrPositiveInt64Validator v = false)) ∧
  (schema.validate_Int64 streamResource_Schema "num_replicas"
     (types.Int64Value v) = true ↔ 1 <= v <= 5) ∧
  (schema.validate_Int64 streamResource_Schema "max_age"
     (types.Int64Value v) = true ↔ 0 <= v).
Proof.
  split; [apply infinityOrPositive_spec |].
  split.
  { split; [reflexivity |]. intros Hv.
    apply not_true_is_false. rewrite infinityOrPositive_spec. lia. }
  split.
  - erewrite streamResource_Schema_lookup_int64 by reflexivity. simpl.
    unfold int64validator.Between.
    rewrite andb_true_r, andb_true_iff, !Z.leb_le. reflexivity.
  - erewrite streamResource_Schema_lookup_int64 by reflexivity. simpl.
    unfold int64validator.AtLeast.
    rewrite andb_true_r, Z.leb_le. reflexivity.
Qed.

Lemma range_check_validators_witness :
  infinityOrPositiveInt64Validator (-2) = false.
Proof.
  destruct (range_check_validators (-2)) as (_ & [_ H] & _).
  apply H. lia.
Defined.

End validators.

(** ** The stream model and its round trip through [StreamConfig] *)

Section stream_roundtrip.
Import natsgo nats provider.
Import streamResourceModel.

Lemma convertSlice_map {S D} (l : list S) (fn : S → D) :
  convertSlice l fn = map fn l.
Proof.
  unfold convertSlice.
  enough (H : ∀ acc, foldl (λ out elem, out ++ [fn elem]) acc l
                     = acc ++ map fn l) by apply H.
  induction l as [| x l IH]; intros acc; simpl.
  - by rewrite app_nil_r.
  - rewrite IH, <- app_assoc. reflexivity.
Qed.

Lemma known_roundtrip {A} `{GoZero A} (v : types.value A) :
  types.IsKnown v = true → types.Known (types.get v) = v.
Proof. by destruct v. Qed.

Lemma subjects_roundtrip (l : list types.String) :
  Forall (λ s, types.IsKnown s = true) l →
  convertSlice (convertSlice l types.ValueString) types.StringValue = l.
Proof.
  rewrite !convertSlice_map. induction 1 as [| s l Hs _ IH]; simpl.
  - reflexivity.
  - rewrite IH. f_equal. by apply known_roundtrip.
Qed.

Lemma wrap_signed_range bits z : 0 < bits → in_signed bits (wrap_signed bits z).
Proof.
  intros Hb. unfold in_signed, wrap_signed.
  assert (H2 : 2 ^ bits = 2 * 2 ^ (bits - 1)).
  { replace bits with (Z.succ (bits - 1)) at 1 by lia.
    rewrite Z.pow_succ_r by lia. reflexivity. }
  assert (0 < 2 ^ (bits - 1)) by (apply Z.pow_pos_nonneg; lia).
  pose proof (Z.mod_pos_bound (z + 2 ^ (bits - 1)) (2 ^ bits)). lia.
Qed.

Lemma int_roundtrip z : is_int64 z → to_int64 (to_int z) = z.
Proof.
  intros Hz. unfold to_int64, to_int, int_bits.
  rewrite (wrap_signed_id 64 z) by (done || lia).
  apply wrap_signed_id; [lia | done].
Qed.

Lemma int32_roundtrip z : is_int32 z → to_int64 (to_int32 z) = z.
Proof.
  intros Hz. unfold to_int64, to_int32.
  rewrite (wrap_signed_id 32 z) by (done || lia).
  apply wrap_signed_id; [lia | by apply in_signed_32_64].
Qed.

Lemma duration_roundtrip z : is_int64 z → to_int64 (to_int64 z) = z.
Proof.
  intros Hz. unfold to_int64.
  rewrite (wrap_signed_id 64 z) by (done || lia).
  apply wrap_signed_id; [lia | done].
Qed.

Lemma stringvalidator_OneOf_In values s :
  stringvalidator.OneOf values s = true → In s values.
Proof.
  unfold stringvalidator.OneOf. rewrite existsb_exists.
  intros (x & Hx & Heq). apply String.eqb_eq in Heq. by subst.
Qed.

Lemma streamResource_Schema_lookup_string name a :
  streamResource_Schema !! name = Some (schema.String a) →
  ∀ s, schema.validate_String streamResource_Schema name (types.StringValue s)
       = forallb (λ f, f s) (schema.sValidators a).
Proof. intros H s. unfold schema.validate_String. rewrite H. reflexivity. Qed.

Lemma enum_roundtrips :
  (∀ s, In s ["file"; "memory"] → FromStorageType (ToStorageType s) = s) ∧
  (∀ s, In s ["limits"; "interest"; "work"] →
        FromRetentionPolicy (ToRetentionPolicy s) = s) ∧
  (∀ s, In s ["old"; "new"] → FromDiscardPolicy (ToDiscardPolicy s) = s).
Proof.
  split_and!; intros s Hs; simpl in Hs;
    repeat (destruct Hs as [<- | Hs]; [reflexivity |]); destruct Hs.
Qed.

(** C1, as the code has it.  A model whose attributes are all known, that
    passes the validators of the stream schema and whose [max_msg_size] fits
    the [int32] field of [StreamConfig], is unchanged by [toStreamConfig]
    followed by [fromStreamInfo] on a [StreamInfo] with exactly that config. *)
Theorem stream_roundtrip (m : streamResourceModel.t) (created : Z) :
  stream_known m →
  stream_typed m →
  streamResource_validate m = true →
  types.ValueInt64 (MaxMsgSize m) <= 2147483647 →
  fromStreamInfo (echo m created) = m.
Proof.
  destruct m as [name subjects storage replicas retention discard msgs
                 consumers bytes per_subject msg_size age window direct].
  unfold stream_known, stream_typed, streamResource_validate.
  cbn [Name Subjects Storage NumReplicas Retention Discard MaxMsgs
       MaxConsumers MaxBytes MaxMsgsPerSubject MaxMsgSize MaxAge
       DuplicateWindow AllowDirect].
  intros (Hname & Hsubjects & Hstorage & Hreplicas & Hretention & Hdiscard
          & Hmsgs & Hconsumers & Hbytes & Hper & Hsize & Hage & Hwindow
          & Hdirect).
  destruct name as [| | name]; try discriminate Hname.
  destruct storage as [| | storage]; try discriminate Hstorage.
  destruct replicas as [| | replicas]; try discriminate Hreplicas.
  destruct retention as [| | retention]; try discriminate Hretention.
  destruct discard as [| | discard]; try discriminate Hdiscard.
  destruct msgs as [| | msgs]; try discriminate Hmsgs.
  destruct consumers as [| | consumers]; try discriminate Hconsumers.
  destruct bytes as [| | bytes]; try discriminate Hbytes.
  destruct per_subject as [| | per_subject]; try discriminate Hper.
  destruct msg_size as [| | msg_size]; try discriminate Hsize.
  destruct age as [| | age]; try discriminate Hage.
  destruct window as [| | window]; try discriminate Hwindow.
  destruct direct as [| | direct]; try discriminate Hdirect.
  clear Hname Hstorage Hreplicas Hretention Hdiscard Hmsgs Hconsumers Hbytes
    Hper Hsize Hage Hwindow Hdirect.
  cbn [types.ValueInt64 types.get].
  intros (Treplicas & _ & Tconsumers & _ & _ & Tsize & Tage & Twindow) Hvalid Hfit.
  change (types.Known ?x) with (types.StringValue x) in Hvalid at 1 3 4.
  change (@types.Known Z ?x) with (types.Int64Value x) in Hvalid.
  repeat (erewrite streamResource_Schema_lookup_string in Hvalid
            by reflexivity).
  repeat (erewrite streamResource_Schema_lookup_int64 in Hvalid by reflexivity).
  cbn [forallb schema.sValidators schema.iValidators] in Hvalid.
  rewrite !andb_true_r, !andb_true_iff in Hvalid.
  destruct Hvalid as ((((((((((Vstorage & _) & Vretention) & Vdiscard) & _)
                           & _) & _) & _) & Vsize) & _) & _).
  apply stringvalidator_OneOf_In in Vstorage, Vretention, Vdiscard.
  apply infinityOrPositive_spec in Vsize.
  destruct enum_roundtrips as (Rstorage & Rretention & Rdiscard).
  unfold fromStreamInfo, echo, toStreamConfig.
  cbn [StreamInfo.Config StreamConfig.Name StreamConfig.Subjects
       StreamConfig.Storage StreamConfig.Replicas StreamConfig.Retention
       StreamConfig.Discard StreamConfig.MaxMsgs StreamConfig.MaxConsumers
       StreamConfig.MaxBytes StreamConfig.MaxMsgsPerSubject
       StreamConfig.MaxMsgSize StreamConfig.MaxAge StreamConfig.Duplicates
       StreamConfig.AllowDirect
       Name Subjects Storage NumReplicas Retention Discard MaxMsgs
       MaxConsumers MaxBytes MaxMsgsPerSubject MaxMsgSize MaxAge
       DuplicateWindow AllowDirect
       types.ValueString types.ValueInt64 types.ValueBool types.get].
  unfold types.StringValue, types.Int64Value, types.BoolValue.
  rewrite subjects_roundtrip by done.
  rewrite Rstorage, Rretention, Rdiscard by done.
  rewrite ?int_roundtrip, ?duration_roundtrip by done.
  rewrite int32_roundtrip; [reflexivity |].
  clear - Vsize Hfit. unfold in_signed.
  change (2 ^ (32 - 1)) with 2147483648. lia.
Qed.

(** The stream of the README round-trips. *)
Lemma stream_roundtrip_witness :
  fromStreamInfo (echo orders_stream 0) = orders_stream.
Proof.
  apply stream_roundtrip.
  - unfold stream_known. simpl. split_and!; try reflexivity.
    repeat constructor.
  - unfold stream_typed, in_signed. simpl. lia.
  - vm_compute. reflexivity.
  - simpl. lia.
Defined.

(** C1, as stated, fails.  [large_message_stream] has only known values and
    passes every validator, but the conversion to the [int32] field
    [MaxMsgSize] wraps 2^31 around to -2^31, and that is what comes back.
    [null_subject_stream] passes every validator too, but its null subject
    is read as the empty string and comes back as a known value. *)
Lemma stream_roundtrip_fails :
  (stream_known large_message_stream ∧
   stream_typed large_message_stream ∧
   streamResource_validate large_message_stream = true ∧
   MaxMsgSize (fromStreamInfo (echo large_message_stream 0))
     = types.Int64Value (-2147483648) ∧
   fromStreamInfo (echo large_message_stream 0) ≠ large_message_stream) ∧
  (stream_typed null_subject_stream ∧
   streamResource_validate null_subject_stream = true ∧
   Subjects (fromStreamInfo (echo null_subject_stream 0))
     = [types.StringValue ""] ∧
   fromStreamInfo (echo null_subject_stream 0) ≠ null_subject_stream).
Proof.
  split; split_and!.
  - unfold stream_known. simpl. split_and!; try reflexivity.
    repeat constructor.
  - unfold stream_typed, in_signed. simpl. lia.
  - vm_compute. reflexivity.
  - vm_compute. reflexivity.
  - intros Heq. apply (f_equal MaxMsgSize) in Heq. vm_compute in Heq.
    discriminate.
  - unfold stream_typed, in_signed. simpl. lia.
  - vm_compute. reflexivity.
  - vm_compute. reflexivity.
  - intros Heq. apply (f_equal Subjects) in Heq. vm_compute in Heq.
    discriminate.
Qed.

End stream_roundtrip.

(** ** The consumer model: mode check and import *)

Section consumer_model.
Import natsgo nats provider resource.
Import consumerResourceModel.

Lemma validateMode_None (data : consumerResourceModel.t) :
  validateMode data = None ↔ ¬ mode_mismatch data.
Proof.
  unfold validateMode, mode_mismatch.
  repeat case_bool_decide; simpl; (split; intros Hx);
    first [discriminate | reflexivity | tauto | exfalso; tauto].
Qed.

Lemma validateMode_Some (data : consumerResourceModel.t) :
  is_Some (validateMode data) ↔ mode_mismatch data.
Proof.
  rewrite <- not_eq_None_Some, validateMode_None.
  unfold mode_mismatch.
  destruct (decide (types.ValueString (Mode data) = "pull"));
    destruct (decide (types.ValueString (Mode data) = "push"));
    destruct (decide (types.ValueString (DeliverSubject data) = ""));
    tauto.
Qed.

(** C3. [toConsumerConfig] returns an error exactly on a mode mismatch;
    otherwise it returns, with a nil error, the config whose [Name] and
    [Durable] are both the model's name and whose other fields are the mapped
    model fields. *)
Theorem toConsumerConfig_mode_check (data : consumerResourceModel.t) :
  (is_Some (snd (toConsumerConfig data)) ↔ mode_mismatch data) ∧
  (mode_mismatch data → fst (toConsumerConfig data) = go_zero) ∧
  (¬ mode_mismatch data →
   toConsumerConfig data = (mapped_config data, None) ∧
   ConsumerConfig.Name (fst (toConsumerConfig data))
     = types.ValueString (Name data) ∧
   ConsumerConfig.Durable (fst (toConsumerConfig data))
     = types.ValueString (Name data)).
Proof.
  unfold toConsumerConfig. split_and!.
  - rewrite <- validateMode_Some.
    destruct (validateMode data); simpl; [by split; eauto |].
    split; intros [? ?]; discriminate.
  - intros H%validateMode_Some. destruct H as [err ->]. reflexivity.
  - intros H%validateMode_None. rewrite H. unfold mapped_config.
    rewrite convertSlice_map. done.
Qed.

Lemma toConsumerConfig_mode_check_witness :
  is_Some (snd (toConsumerConfig push_without_subject)) ∧
  toConsumerConfig new_order_consumer
    = (mapped_config new_order_consumer, None).
Proof.
  split.
  - apply (toConsumerConfig_mode_check push_without_subject).
    right. split; reflexivity.
  - apply (toConsumerConfig_mode_check new_order_consumer).
    intros [[_ H] | [H _]]; [by apply H | discriminate H].
Defined.

(** *** Import *)

Lemma strings_Split_nonempty s sep : strings_Split s sep ≠ [].
Proof.
  induction s as [| c s IH]; simpl; [done |].
  case_decide; [done |]. by destruct (strings_Split s sep).
Qed.

Lemma strings_Split_length s sep :
  (length (strings_Split s sep) = 1%nat ↔ ¬ In sep (list_ascii_of_string s)) ∧
  (1 ≤ length (strings_Split s sep))%nat.
Proof.
  induction s as [| c s [IH1 IH2]]; simpl.
  - split; [| lia]. split; [tauto | done].
  - case_decide as Hc.
    + subst. simpl. split; [| lia]. split; [lia | tauto].
    + destruct (strings_Split s sep) as [| tok toks] eqn:E; simpl in *.
      * lia.
      * split; [| lia]. rewrite IH1. split; [tauto | tauto].
Qed.

(** The import panics with an index out of range exactly when the id
    contains no [#]: the error is reported, but [tokens[1]] is read all the
    same. *)
Lemma ImportState_panics_iff
    (req : ImportStateRequest) (resp : ImportStateResponse) :
  consumerResource_ImportState req resp
    = Panic "runtime error: index out of range"
  ↔ ¬ has_separator (ID req).
Proof.
  unfold has_separator.
  destruct (strings_Split_length (ID req) "#"%char) as [Hlen Hge].
  rewrite <- Hlen. unfold consumerResource_ImportState.
  destruct (strings_Split (ID req) "#"%char) as [| t0 [| t1 ts]] eqn:E;
    simpl in *.
  - lia.
  - split; reflexivity.
  - split; [| lia].
    unfold index; simpl. repeat case_bool_decide; simpl; discriminate.
Qed.

(** C8 does not hold of the code: importing a consumer by its bare name,
    an id without [#], reads [tokens[1]] of a one-element list and panics;
    the same happens with the empty id. *)
Theorem ImportState_panics_on_plain_name (resp : ImportStateResponse) :
  strings_Split "new_order_consumer" "#"%char = ["new_order_consumer"] ∧
  consumerResource_ImportState (mkImportStateRequest "new_order_consumer")
    resp = Panic "runtime error: index out of range" ∧
  consumerResource_ImportState (mkImportStateRequest "") resp
    = Panic "runtime error: index out of range".
Proof.
  split_and!; [reflexivity | |];
    apply ImportState_panics_iff; unfold has_separator; simpl; intros H;
    repeat (destruct H as [H | H]; [discriminate H |]); destruct H.
Qed.

(** With a separator the import returns; a malformed id of that kind only
    gets the error diagnostic. *)
Lemma ImportState_three_parts :
  ∃ resp, consumerResource_ImportState (mkImportStateRequest "a#b#c")
            (mkImportStateResponse ∅ []) = Done resp ∧
          HasError (import_Diags resp) = true.
Proof. eexists. split; vm_compute; reflexivity. Qed.

End consumer_model.

(** ** The client: what one method invocation does with the library *)

Section client_traces.
Import natsgo nats.

Lemma runs_inv {E R} (p : Prog E R) tr r :
  runs p tr r →
  match p with
  | Ret r' => tr = [] ∧ r = r'
  | Call e k => ∃ x tr', tr = Ev e x :: tr' ∧ runs (k x) tr' r
  end.
Proof. destruct 1; eauto. Qed.

Lemma runs_bind_inv {E R S} (p : Prog E R) (f : R → Prog E S) tr s :
  runs (bind p f) tr s →
  ∃ tr1 tr2 r, tr = tr1 ++ tr2 ∧ runs p tr1 r ∧ runs (f r) tr2 s.
Proof.
  revert tr. induction p as [r | X e k IH]; simpl; intros tr Hrun.
  - exists [], tr, r. split_and!; [done | constructor | done].
  - apply runs_inv in Hrun as (x & tr' & -> & Hrun).
    destruct (IH x tr' Hrun) as (tr1 & tr2 & r & -> & H1 & H2).
    exists (Ev e x :: tr1), tr2, r. split_and!; [done | by constructor | done].
Qed.

Lemma exec_runs {E R S} (h : ∀ X, E X → S → X * S) (p : Prog E R) (s : S) :
  runs p (exec h p s).1.1 (exec h p s).1.2.
Proof.
  revert s. induction p as [r | X e k IH]; intros s; simpl.
  - constructor.
  - destruct (h X e s) as [x s1]. specialize (IH x s1).
    destruct (exec h (k x) s1) as [[tr r] s2]. simpl in *. by constructor.
Qed.

Ltac run_step H :=
  lazymatch type of H with
  | runs (Call _ _) _ _ =>
      let x := fresh "ans" in
      let tr := fresh "tr" in
      apply runs_inv in H as (x & tr & -> & H); cbn beta in H
  | runs (Ret _) _ _ => apply runs_inv in H as [-> ->]
  | runs (match ?x with _ => _ end) _ _ =>
      destruct x eqn:?; cbn beta iota in H
  | runs (bind (match ?x with _ => _ end) _) _ _ =>
      destruct x eqn:?; cbn [bind call] in H
  | runs (bind _ _) _ _ => cbn [bind call] in H
  | runs (defer_Close _ _) _ _ => unfold defer_Close in H
  end.

Ltac run_client H :=
  unfold client_call, client_GetStream, client_CreateStream,
    client_UpdateStream, client_DeleteStream, client_GetConsumer,
    client_CreateConsumer, client_UpdateConsumer, client_DeleteConsumer in H;
  repeat run_step H.

Lemma client_call_session (c : client) {X} (m : Client X) tr (r : X) :
  runs (client_call c m) tr r → session (url c) tr.
Proof.
  intros H. destruct m; run_client H.
  all: split; unfold count; simpl; rewrite ?Nat.eqb_refl; try done.
  all: try (intros nc' [= <-]; rewrite ?Nat.eqb_refl; done).
  all: lia.
Qed.

(** Every invocation does run, whatever the library answers. *)
Lemma client_call_total (c : client) {X} (m : Client X)
    {S} (h : ∀ X, NatsE X → S → X * S) (s : S) :
  ∃ tr r, runs (client_call c m) tr r.
Proof. eexists _, _. apply (exec_runs h _ s). Qed.

(** C6. Every invocation of a client method makes the calls of one session:
    it connects once, makes at most one JetStream request, uses only the
    connection it opened, and closes it with its last call whenever it was
    opened.  Two invocations in a row are two such sessions: nothing of the
    first is left open for the second. *)
Theorem fresh_connection_per_call (c : client) :
  (∀ X (m : Client X) tr r,
     runs (client_call c m) tr r → session (url c) tr) ∧
  (∀ X1 X2 (m1 : Client X1) (m2 : Client X2) tr r,
     runs (let* _ := client_call c m1 in client_call c m2)%prog tr r →
     ∃ tr1 tr2, tr = tr1 ++ tr2 ∧
                session (url c) tr1 ∧ session (url c) tr2).
Proof.
  split.
  - intros X m tr r. apply client_call_session.
  - intros X1 X2 m1 m2 tr r Hrun.
    apply runs_bind_inv in Hrun as (tr1 & tr2 & r1 & -> & H1 & H2).
    exists tr1, tr2. eauto using client_call_session.
Qed.

Lemma fresh_connection_per_call_witness :
  session "nats://localhost:4222"
    [Ev (Connect "nats://localhost:4222") (LibOk 0%nat);
     Ev (Conn_JetStream 0%nat) None;
     Ev (js_StreamInfo (mkJetStreamContext 0%nat) "orders")
        (LibErr ErrStreamNotFound);
     Ev (Conn_Close 0%nat) tt].
Proof.
  apply (proj1 (fresh_connection_per_call (NewClient "nats://localhost:4222"))
           _ (GetStream "orders") _ (go_zero, Some ErrNotFound)).
  apply (exec_runs no_such_stream
           (client_call (NewClient "nats://localhost:4222")
              (GetStream "orders")) 0%nat).
Defined.

Ltac split_In H :=
  simpl in H;
  repeat (destruct H as [<- | H]; [| try done]); simpl in *; try done.

(** C4. Error propagation in the client.  A [Get] method returns the
    sentinel [ErrNotFound] exactly when its JetStream request failed with an
    error that is [ErrStreamNotFound] or [ErrConsumerNotFound]; no other
    method returns the sentinel.  Any other failure of a library call of any
    method comes back wrapped by [fmt.Errorf], with the zero info value; and
    when no library call fails the method returns a nil error and the info
    that the library returned. *)
Theorem client_error_propagation (c : client) {X} (m : Client X) tr (r : X) :
  runs (client_call c m) tr r →
  (call_error m r = Some ErrNotFound ↔
     is_Get m = true ∧
     ∃ err, request_failure tr = Some err ∧ is_not_found err = true) ∧
  (call_error m r = Some ErrNotFound → call_info m r = zero_info m) ∧
  (∀ err, first_failure tr = Some err →
     ¬ (is_Get m = true ∧ request_failure tr = Some err
        ∧ is_not_found err = true) →
     (∃ prefix, call_error m r = Some (Errorf_w prefix err)) ∧
     call_info m r = zero_info m) ∧
  (first_failure tr = None →
     call_error m r = None ∧ call_info m r = trace_info tr) ∧
  (∀ ev, In ev tr → is_request ev = true →
     request_method ev = Some (library_method m)).
Proof.
  intros H. destruct m; run_client H.
  all: unfold first_failure, request_failure, trace_info; simpl.
  all: split_and!;
    [ split;
      [ intros Hl;
        first [ discriminate Hl
              | split; [done | eexists; split; [reflexivity | done]] ]
      | intros [Hg (err0 & Hf & Hnf)];
        first [done | discriminate | simplify_eq; congruence] ]
    | intros Hl; first [discriminate Hl | reflexivity]
    | intros err0 Hf Hnot;
      first [ discriminate Hf
            | simplify_eq;
              first [ by (split; [eexists |])
                    | exfalso; apply Hnot; done ] ]
    | intros Hf; first [discriminate Hf | done]
    | intros ev Hin Hreq; split_In Hin ].
Qed.

Lemma client_error_propagation_witness :
  call_error (GetStream "orders")
    (go_zero : StreamInfo, Some ErrNotFound) = Some ErrNotFound
  ↔ is_Get (GetStream "orders") = true ∧
    ∃ err,
      request_failure
        [Ev (Connect "nats://localhost:4222") (LibOk 0%nat);
         Ev (Conn_JetStream 0%nat) None;
         Ev (js_StreamInfo (mkJetStreamContext 0%nat) "orders")
            (LibErr ErrStreamNotFound);
         Ev (Conn_Close 0%nat) tt] = Some err
      ∧ is_not_found err = true.
Proof.
  apply (client_error_propagation (NewClient "nats://localhost:4222")
           (GetStream "orders")).
  apply (exec_runs no_such_stream
           (client_call (NewClient "nats://localhost:4222")
              (GetStream "orders")) 0%nat).
Defined.

End client_traces.

(** ** The resource operations: what they ask of the client *)

Section resource_operations.
Import natsgo nats provider resource.

Lemma calls_once_intro {X R} (m : Client X) (k : X → Prog Client R)
    (post : X → R → Prop) :
  (∀ ans, ∃ r, k ans = Ret r ∧ post ans r) →
  calls_once (Call m k) m post.
Proof.
  intros Hk. split.
  - intros tr r Hrun. apply runs_inv in Hrun as (ans & tr' & -> & Hrun).
    destruct (Hk ans) as (r' & Heq & Hpost). rewrite Heq in Hrun.
    apply runs_inv in Hrun as [-> ->]. eauto.
  - intros ans. destruct (Hk ans) as (r & Heq & _).
    exists r. constructor. rewrite Heq. constructor.
Qed.

Lemma calls_once_weaken {X R} (p : Prog Client R) (m : Client X)
    (post post' : X → R → Prop) :
  (∀ ans r, post ans r → post' ans r) →
  calls_once p m post → calls_once p m post'.
Proof.
  intros Hw [H1 H2]. split; [| done].
  intros tr r Hrun. destruct (H1 tr r Hrun) as (ans & -> & Hp). eauto.
Qed.

Lemma Append_one (diags : Diagnostics) (d : Diagnostic) :
  Append diags [d] = if Contains diags d then diags else diags ++ [d].
Proof. reflexivity. Qed.

Lemma In_Append_one (diags : Diagnostics) (d : Diagnostic) :
  In d (Append diags [d]).
Proof.
  rewrite Append_one. unfold Contains. case_bool_decide as Hd.
  - by apply list_elem_of_In.
  - apply in_or_app. right. by left.
Qed.

Lemma HasError_Append_one (diags : Diagnostics) (d : Diagnostic) :
  HasError (Append diags [d]) = HasError diags || is_error d.
Proof.
  rewrite Append_one. unfold Contains, HasError. case_bool_decide as Hd.
  - destruct (is_error d) eqn:Hed; [| by rewrite orb_false_r].
    rewrite orb_true_r. apply existsb_exists. exists d.
    split; [by apply list_elem_of_In | done].
  - rewrite existsb_app. simpl. by rewrite orb_false_r.
Qed.

Lemma Diagnostics_Append_nil {M} (resp : Response M) :
  Diagnostics_Append resp [] = resp.
Proof. by destruct resp. Qed.

Lemma State_Set_wrote {M} (resp : Response M) (data : M) :
  wrote resp (State_Set resp data) data.
Proof. by split. Qed.

Lemma AddError_reported {M} (resp : Response M) summary detail :
  reported resp (AddError resp summary detail) summary detail.
Proof.
  unfold reported, AddError, Diagnostics_Append. cbn [State Diags]. split_and!.
  - done.
  - apply In_Append_one.
  - rewrite HasError_Append_one. apply orb_true_r.
Qed.

Lemma AddWarning_removed {M} (resp : Response M) detail :
  fresh resp →
  removed (State_RemoveResource (AddWarning resp "Resource not found" detail))
    detail.
Proof.
  intros Hf.
  unfold removed, State_RemoveResource, AddWarning, Diagnostics_Append.
  cbn [State Diags]. split_and!.
  - done.
  - apply In_Append_one.
  - rewrite HasError_Append_one, Hf. reflexivity.
Qed.

Lemma call_post_info_post {M I} (from : I → M) failed resp ans r :
  call_post from failed resp ans r → info_post from resp ans r.
Proof. unfold call_post, info_post. intros H Heq. by rewrite Heq in H. Qed.

Lemma read_post_info_post {M I} (from : I → M) not_found failed resp ans r :
  read_post from not_found failed resp ans r → info_post from resp ans r.
Proof. unfold read_post, info_post. intros H Heq. by rewrite Heq in H. Qed.

Lemma delete_post_done_post {M} failed (resp : Response M) ans r :
  delete_post failed resp ans r → done_post resp ans r.
Proof. unfold delete_post, done_post. by intros H ->. Qed.

(** Reading the plan or state went well: the operation goes on. *)
Ltac read_ok Hget Hfresh :=
  rewrite Hget; cbn [tfsdk.Get]; rewrite Diagnostics_Append_nil;
  rewrite Hfresh.

(** The rest of the operation is one call, then a return in every case. *)
Ltac one_call :=
  apply calls_once_intro;
  first [ intros [info [err |]] | intros [err |] ];
  unfold call_post, delete_post, read_post; cbn [fst snd];
  try match goal with
      | |- context [errors_Is ?e ErrNotFound] =>
          destruct (errors_Is e ErrNotFound)
      end;
  (eexists; split; [reflexivity |]);
  first [ apply AddError_reported
        | apply State_Set_wrote
        | by apply AddWarning_removed
        | reflexivity ].

Lemma streamResource_Create_calls_once :
  stream_Create_calls (call_post fromStreamInfo "Failed to create stream: ").
Proof.
  intros req resp data Hplan Hfresh. unfold streamResource_Create.
  read_ok Hplan Hfresh. one_call.
Qed.

Lemma streamResource_Read_calls_once :
  stream_Read_calls
    (read_post fromStreamInfo
       "couldn't find the stream, possibly deleted outside terraform"
       "Failed to read stream: ").
Proof.
  intros req resp data Hstate Hfresh. unfold streamResource_Read.
  read_ok Hstate Hfresh. one_call.
Qed.

Lemma streamResource_Update_calls_once :
  stream_Update_calls (call_post fromStreamInfo "Failed to update stream: ").
Proof.
  intros req resp plan state Hplan Hstate Hfresh Hname.
  unfold streamResource_Update.
  read_ok Hplan Hfresh. read_ok Hstate Hfresh.
  rewrite bool_decide_false by (by intros []).
  one_call.
Qed.

Lemma streamResource_Delete_calls_once :
  stream_Delete_calls (delete_post "Failed to delete stream: ").
Proof.
  intros req resp state Hstate Hfresh. unfold streamResource_Delete.
  read_ok Hstate Hfresh. one_call.
Qed.

Lemma consumerResource_Create_calls_once :
  consumer_Create_calls
    (call_post fromConsumerInfo "Failed to create consumer: ").
Proof.
  intros req resp data Hplan Hfresh Hmode. unfold consumerResource_Create.
  read_ok Hplan Hfresh. unfold toConsumerConfig. rewrite Hmode.
  cbn [fst]. one_call.
Qed.

Lemma consumerResource_Read_calls_once :
  consumer_Read_calls
    (read_post fromConsumerInfo
       "couldn't find the consumer, possibly deleted outside terraform"
       "Failed to read consumer: ").
Proof.
  intros req resp data Hstate Hfresh. unfold consumerResource_Read.
  read_ok Hstate Hfresh. one_call.
Qed.

Lemma consumerResource_Update_calls_once :
  consumer_Update_calls
    (call_post fromConsumerInfo "Failed to update consumer: ").
Proof.
  intros req resp plan state Hplan Hstate Hfresh Hname Hstream Hmode.
  unfold consumerResource_Update.
  read_ok Hplan Hfresh. read_ok Hstate Hfresh.
  rewrite !bool_decide_false by (by intros []). cbn [orb].
  unfold toConsumerConfig. rewrite Hmode. cbn [fst]. one_call.
Qed.

Lemma consumerResource_Delete_calls_once :
  consumer_Delete_calls (delete_post "Failed to delete consumer: ").
Proof.
  intros req resp state Hstate Hfresh. unfold consumerResource_Delete.
  read_ok Hstate Hfresh. one_call.
Qed.

(** C5. Single-call pass-through.  When the plan or state is read without
    error and the local checks pass, each operation of the two resources
    makes exactly one client call, the one that belongs to the operation:
    [Create] and [Update] pass the config made by [toStreamConfig] or
    [toConsumerConfig] (and the stream name of a consumer), [Read] and
    [Delete] pass the names read from the state.  On success the state
    written is [fromStreamInfo] or [fromConsumerInfo] of the returned info
    ([Delete] writes nothing). *)
Theorem single_call_pass_through :
  stream_Create_calls (info_post fromStreamInfo) ∧
  stream_Read_calls (info_post fromStreamInfo) ∧
  stream_Update_calls (info_post fromStreamInfo) ∧
  stream_Delete_calls done_post ∧
  consumer_Create_calls (info_post fromConsumerInfo) ∧
  consumer_Read_calls (info_post fromConsumerInfo) ∧
  consumer_Update_calls (info_post fromConsumerInfo) ∧
  consumer_Delete_calls done_post.
Proof.
  split_and!.
  - intros req resp data H1 H2.
    eapply calls_once_weaken; [apply call_post_info_post |].
    by apply streamResource_Create_calls_once.
  - intros req resp data H1 H2.
    eapply calls_once_weaken; [apply read_post_info_post |].
    by apply streamResource_Read_calls_once.
  - intros req resp plan state H1 H2 H3 H4.
    eapply calls_once_weaken; [apply call_post_info_post |].
    by eapply streamResource_Update_calls_once.
  - intros req resp state H1 H2.
    eapply calls_once_weaken; [apply delete_post_done_post |].
    by eapply streamResource_Delete_calls_once.
  - intros req resp data H1 H2 H3.
    eapply calls_once_weaken; [apply call_post_info_post |].
    by apply consumerResource_Create_calls_once.
  - intros req resp data H1 H2.
    eapply calls_once_weaken; [apply read_post_info_post |].
    by apply consumerResource_Read_calls_once.
  - intros req resp plan state H1 H2 H3 H4 H5 H6.
    eapply calls_once_weaken; [apply call_post_info_post |].
    by eapply consumerResource_Update_calls_once.
  - intros req resp state H1 H2.
    eapply calls_once_weaken; [apply delete_post_done_post |].
    by eapply consumerResource_Delete_calls_once.
Qed.

(** Creating the stream and the consumer of the README. *)
Lemma single_call_pass_through_witness :
  calls_once
    (streamResource_Create (mkCreateRequest _ (Some orders_stream))
       (mkResponse None []))
    (CreateStream (toStreamConfig orders_stream))
    (info_post fromStreamInfo (mkResponse None [])) ∧
  calls_once
    (consumerResource_Create (mkCreateRequest _ (Some new_order_consumer))
       (mkResponse None []))
    (CreateConsumer "orders" (fst (toConsumerConfig new_order_consumer)))
    (info_post fromConsumerInfo (mkResponse None [])).
Proof.
  destruct single_call_pass_through as (Hs & _ & _ & _ & Hc & _).
  split.
  - apply Hs; reflexivity.
  - apply (Hc (mkCreateRequest _ (Some new_order_consumer))
               (mkResponse None []) new_order_consumer); reflexivity.
Defined.

(** C10. [Read] of either resource, once the state is read, calls the
    client's [Get]: on an error that is [ErrNotFound] a warning is added, no
    error, and the resource is removed from the state; on any other error an
    error diagnostic is added and the state stays as it was; only on success
    is the state overwritten, with the model made from the fetched info.
    The other operations report every error of their call. *)
Theorem read_not_found_handling :
  stream_Read_calls
    (read_post fromStreamInfo
       "couldn't find the stream, possibly deleted outside terraform"
       "Failed to read stream: ") ∧
  consumer_Read_calls
    (read_post fromConsumerInfo
       "couldn't find the consumer, possibly deleted outside terraform"
       "Failed to read consumer: ") ∧
  stream_Create_calls (call_post fromStreamInfo "Failed to create stream: ") ∧
  stream_Update_calls (call_post fromStreamInfo "Failed to update stream: ") ∧
  stream_Delete_calls (delete_post "Failed to delete stream: ") ∧
  consumer_Create_calls
    (call_post fromConsumerInfo "Failed to create consumer: ") ∧
  consumer_Update_calls
    (call_post fromConsumerInfo "Failed to update consumer: ") ∧
  consumer_Delete_calls (delete_post "Failed to delete consumer: ").
Proof.
  split_and!.
  - apply streamResource_Read_calls_once.
  - apply consumerResource_Read_calls_once.
  - apply streamResource_Create_calls_once.
  - apply streamResource_Update_calls_once.
  - apply streamResource_Delete_calls_once.
  - apply consumerResource_Create_calls_once.
  - apply consumerResource_Update_calls_once.
  - apply consumerResource_Delete_calls_once.
Qed.

Lemma read_not_found_handling_witness :
  calls_once
    (streamResource_Read (mkReadRequest _ (Some orders_stream))
       (mkResponse (Some orders_stream) []))
    (GetStream "orders")
    (read_post fromStreamInfo
       "couldn't find the stream, possibly deleted outside terraform"
       "Failed to read stream: " (mkResponse (Some orders_stream) [])).
Proof.
  apply (proj1 read_not_found_handling
           (mkReadRequest _ (Some orders_stream))
           (mkResponse (Some orders_stream) []) orders_stream); reflexivity.
Defined.

(** Reading the stream of the README when it is gone removes it from the
    state with a warning; updating it reports the client's error and keeps
    the state. *)
Example read_of_a_lost_stream :
  (exec all_gone
     (streamResource_Read (mkReadRequest _ (Some orders_stream))
        (mkResponse (Some orders_stream) [])) tt).1.2
  = mkResponse None
      [WarningDiagnostic "Resource not found"
         "couldn't find the stream, possibly deleted outside terraform"].
Proof. reflexivity. Qed.

Example update_of_a_lost_stream :
  (exec all_gone
     (streamResource_Update
        (mkUpdateRequest _ (Some orders_stream) (Some orders_stream))
        (mkResponse (Some orders_stream) [])) tt).1.2
  = mkResponse (Some orders_stream)
      [ErrorDiagnostic "Client error" "Failed to update stream: unavailable"].
Proof. reflexivity. Qed.

End resource_operations.

(** * Further properties of the code *)

(** ** utils.go: [invertMap] on any map, and [convertSlice] *)

Section utils_more.
Context {A B : Type} `{Countable A, Countable B}.

Lemma invertMap_entries (m : gmap A B) :
  (∀ k v, invertMap m !! v = Some k → m !! k = Some v) ∧
  (∀ k v, m !! k = Some v → is_Some (invertMap m !! v)) ∧
  (size (invertMap m) ≤ size m)%nat.
Proof.
  unfold invertMap.
  apply (map_fold_weak_ind
           (λ (r : gmap B A) (m : gmap A B),
              (∀ k v, r !! v = Some k → m !! k = Some v) ∧
              (∀ k v, m !! k = Some v → is_Some (r !! v)) ∧
              (size r ≤ size m)%nat)).
  - split_and!.
    + intros k v. by rewrite lookup_empty.
    + intros k v. by rewrite lookup_empty.
    + by rewrite !map_size_empty.
  - intros i x m0 r Hi (Hconv & Hdom & Hsize). split_and!.
    + intros k v. destruct (decide (v = x)) as [-> | Hv].
      * rewrite lookup_insert_eq. intros [= <-]. apply lookup_insert_eq.
      * rewrite lookup_insert_ne by done. intros Hk%Hconv.
        rewrite lookup_insert_ne; [done | congruence].
    + intros k v. destruct (decide (v = x)) as [-> | Hv].
      * intros _. rewrite lookup_insert_eq. by eexists.
      * rewrite (lookup_insert_ne r) by done. intros Hk.
        destruct (decide (i = k)) as [-> | Hne].
        -- rewrite lookup_insert_eq in Hk. congruence.
        -- rewrite lookup_insert_ne in Hk by done. by eapply Hdom.
    + rewrite (map_size_insert_None i x m0 Hi), map_size_insert.
      destruct (r !! x); simpl; lia.
Qed.

End utils_more.

Section invertMap_any.
Context {A B : Type} `{Countable A, Countable B}.


End invertMap_any.


Section utils_order.
Import natsgo nats provider.

(** X2. Go does not fix the order in which [range] visits a map, and
    [invertMap] is run on package initialisation: whatever the order, the
    five inverted tables come out the same. *)
Theorem inverted_tables_order_irrelevant :
  (∀ entries, entries ≡ₚ map_to_list storageType →
     invertMap_in_order entries = invertedStorageType) ∧
  (∀ entries, entries ≡ₚ map_to_list discardPolicy →
     invertMap_in_order entries = invertedDiscardPolicy) ∧
  (∀ entries, entries ≡ₚ map_to_list retentionPolicy →
     invertMap_in_order entries = invertedRetentionPolicy) ∧
  (∀ entries, entries ≡ₚ map_to_list ackPolicy →
     invertMap_in_order entries = invertedAckPolicy) ∧
  (∀ entries, entries ≡ₚ map_to_list deliverPolicy →
     invertMap_in_order entries = invertedDeliverPolicy).
Proof.
  split_and!; intros entries Hperm;
    apply invertMap_order_irrelevant; try done.
  - apply storageType_injective.
  - apply discardPolicy_injective.
  - apply retentionPolicy_injective.
  - apply ackPolicy_injective.
  - apply deliverPolicy_injective.
Qed.

Lemma inverted_tables_order_irrelevant_witness :
  invertMap_in_order [("file", FileStorage); ("memory", MemoryStorage)]
    = invertedStorageType ∧
  invertMap_in_order [("memory", MemoryStorage); ("file", FileStorage)]
    = invertedStorageType.
Proof.
  destruct inverted_tables_order_irrelevant as (Hs & _).
  assert (Hl : [("memory", MemoryStorage); ("file", FileStorage)]
               ≡ₚ map_to_list storageType).
  { unfold storageType.
    rewrite map_to_list_insert by reflexivity.
    rewrite map_to_list_insert by reflexivity.
    by rewrite map_to_list_empty. }
  split; apply Hs; [| done].
  rewrite <- Hl. apply perm_swap.
Defined.

(** X3. [convertSlice] keeps the length and the order: the i-th element of
    the result is [fn] of the i-th element of the input, there is no element
    beyond, the result of an empty (or nil) slice is empty, and converting
    two slices one after the other is converting their concatenation. *)
Theorem convertSlice_elementwise {S D} (l : list S) (fn : S → D) :
  length (convertSlice l fn) = length l ∧
  (∀ i, convertSlice l fn !! i = fn <$> (l !! i)) ∧
  convertSlice [] fn = [] ∧
  (∀ l', convertSlice (l ++ l') fn = convertSlice l fn ++ convertSlice l' fn).
Proof.
  rewrite convertSlice_map. split_and!.
  - apply length_map.
  - intros i. apply list_lookup_fmap.
  - reflexivity.
  - intros l'. rewrite !convertSlice_map. apply map_app.
Qed.

End utils_order.

(** ** types.go and the schemas: constants and strings outside the tables *)

Section enum_edges.
Import natsgo nats provider.

Ltac lookup_cases H :=
  repeat (apply lookup_insert_Some in H as [[? ?] | [? H]]);
  [.. | by rewrite lookup_empty in H]; subst.

Lemma invertMap_lookup_None {A B} `{Countable A, Countable B}
    (m : gmap A B) v :
  (∀ k, m !! k ≠ Some v) → invertMap m !! v = None.
Proof.
  intros Hv. destruct (invertMap m !! v) as [k |] eqn:Hk; [| done].
  destruct (invertMap_entries m) as (Hconv & _).
  destruct (Hv k). by apply Hconv.
Qed.

(** X4. The [From] functions on a constant outside their table return the
    empty string, and the [To] function turns that into the first constant:
    a stream or consumer whose policy the tables do not know (such as the
    library's [DeliverByStartSequencePolicy]) is read as the empty string
    and would be written back with the default policy. *)
Theorem From_outside_table (v : Z) :
  (v ∉ [FileStorage; MemoryStorage] →
   FromStorageType v = "" ∧ ToStorageType (FromStorageType v) = FileStorage) ∧
  (v ∉ [DiscardOld; DiscardNew] →
   FromDiscardPolicy v = "" ∧ ToDiscardPolicy (FromDiscardPolicy v) = DiscardOld) ∧
  (v ∉ [LimitsPolicy; InterestPolicy; WorkQueuePolicy] →
   FromRetentionPolicy v = "" ∧
   ToRetentionPolicy (FromRetentionPolicy v) = LimitsPolicy) ∧
  (v ∉ [AckNonePolicy; AckAllPolicy; AckExplicitPolicy] →
   FromAckPolicy v = "" ∧ ToAckPolicy (FromAckPolicy v) = AckNonePolicy) ∧
  (v ∉ [DeliverAllPolicy; DeliverNewPolicy; DeliverLastPolicy] →
   FromDeliverPolicy v = "" ∧
   ToDeliverPolicy (FromDeliverPolicy v) = DeliverAllPolicy).
Proof.
  assert (Hfrom : ∀ (m : gmap string Z),
            (∀ k, m !! k ≠ Some v) → mapFn (invertMap m) v = "").
  { intros m Hm. unfold mapFn. by rewrite invertMap_lookup_None. }
  split_and!; intros Hv.
  - unfold FromStorageType, invertedStorageType. rewrite Hfrom; [done |].
    intros k Hk. unfold storageType in Hk. lookup_cases Hk; set_solver.
  - unfold FromDiscardPolicy, invertedDiscardPolicy. rewrite Hfrom; [done |].
    intros k Hk. unfold discardPolicy in Hk. lookup_cases Hk; set_solver.
  - unfold FromRetentionPolicy, invertedRetentionPolicy.
    rewrite Hfrom; [done |].
    intros k Hk. unfold retentionPolicy in Hk. lookup_cases Hk; set_solver.
  - unfold FromAckPolicy, invertedAckPolicy. rewrite Hfrom; [done |].
    intros k Hk. unfold ackPolicy in Hk. lookup_cases Hk; set_solver.
  - unfold FromDeliverPolicy, invertedDeliverPolicy. rewrite Hfrom; [done |].
    intros k Hk. unfold deliverPolicy in Hk. lookup_cases Hk; set_solver.
Qed.

Lemma From_outside_table_witness :
  FromDeliverPolicy DeliverByStartSequencePolicy = "" ∧
  ToDeliverPolicy (FromDeliverPolicy DeliverByStartSequencePolicy)
    = DeliverAllPolicy.
Proof.
  apply (From_outside_table DeliverByStartSequencePolicy).
  unfold DeliverByStartSequencePolicy, DeliverAllPolicy, DeliverNewPolicy,
    DeliverLastPolicy.
  rewrite !not_elem_of_cons. split_and!; try lia. apply not_elem_of_nil.
Defined.

Lemma validate_String_lookup (sch : gmap string schema.Attribute) name a :
  sch !! name = Some (schema.String a) →
  ∀ s, schema.validate_String sch name (types.StringValue s)
       = forallb (λ f, f s) (schema.sValidators a).
Proof. intros H s. unfold schema.validate_String. rewrite H. reflexivity. Qed.

Lemma OneOf_In values s :
  stringvalidator.OneOf values s = true ↔ In s values.
Proof.
  unfold stringvalidator.OneOf. rewrite existsb_exists. split.
  - intros (x & Hx & Heq). apply String.eqb_eq in Heq. by subst.
  - intros Hin. exists s. split; [done | apply String.eqb_refl].
Qed.

Ltac in_cases H :=
  simpl in H; repeat (destruct H as [<- | H]); [.. | destruct H].

Ltac table_validator :=
  intros s; erewrite validate_String_lookup by reflexivity;
  cbn [forallb schema.sValidators]; rewrite andb_true_r, OneOf_In;
  split;
  [ intros Hin; in_cases Hin; by eexists
  | intros [v Hv]; lookup_cases Hv; simpl; tauto ].

(** X5. The strings that the [OneOf] validators of the two schemas accept
    are exactly the keys of the tables that translate them: a validated
    storage, retention, discard, deliver_policy or ack_policy is never a
    string that the [To] function does not know. *)
Theorem validated_strings_are_table_keys :
  (∀ s, schema.validate_String streamResource_Schema "storage"
          (types.StringValue s) = true ↔ is_Some (storageType !! s)) ∧
  (∀ s, schema.validate_String streamResource_Schema "retention"
          (types.StringValue s) = true ↔ is_Some (retentionPolicy !! s)) ∧
  (∀ s, schema.validate_String streamResource_Schema "discard"
          (types.StringValue s) = true ↔ is_Some (discardPolicy !! s)) ∧
  (∀ s, schema.validate_String consumerResource_Schema "deliver_policy"
          (types.StringValue s) = true ↔ is_Some (deliverPolicy !! s)) ∧
  (∀ s, schema.validate_String consumerResource_Schema "ack_policy"
          (types.StringValue s) = true ↔ is_Some (ackPolicy !! s)).
Proof.
  split_and!.
  - unfold storageType. table_validator.
  - unfold retentionPolicy. table_validator.
  - unfold discardPolicy. table_validator.
  - unfold deliverPolicy. table_validator.
  - unfold ackPolicy. table_validator.
Qed.

Lemma schema_defaults (sch : gmap string schema.Attribute) :
  forallb (λ kv, default_passes kv.2) (map_to_list sch) = true →
  ∀ name a, sch !! name = Some a → default_passes a = true.
Proof.
  rewrite forallb_forall. intros Hall name a Hlookup.
  apply (Hall (name, a)). apply list_elem_of_In.
  by apply elem_of_map_to_list.
Qed.

(** X6. In both resource schemas the default of every attribute passes the
    validators of that attribute: leaving an optional attribute out never
    makes a configuration invalid. *)
Theorem schema_defaults_pass_validators (name : string) (a : schema.Attribute) :
  (streamResource_Schema !! name = Some a → default_passes a = true) ∧
  (consumerResource_Schema !! name = Some a → default_passes a = true).
Proof.
  split; apply schema_defaults; vm_compute; reflexivity.
Qed.

Lemma schema_defaults_pass_validators_witness :
  default_passes (schema.Int64 (schema.mkInt64 false true true
    (Some 120000000000) [infinityOrPositiveInt64Validator])) = true.
Proof.
  apply (proj1 (schema_defaults_pass_validators "duplicate_window" _)).
  reflexivity.
Defined.

End enum_edges.

(** ** The conversions between models and configs, the other way round *)

Section conversions_more.
Import natsgo nats provider.

Lemma fromConsumerInfo_validateMode (info : ConsumerInfo) :
  validateMode (fromConsumerInfo info) = None.
Proof.
  unfold validateMode, fromConsumerInfo.
  cbn [consumerResourceModel.Mode consumerResourceModel.DeliverSubject].
  unfold types.ValueString, types.StringValue. cbn [types.get].
  destruct (decide
    (ConsumerConfig.DeliverSubject (ConsumerInfo.Config info) = ""))
    as [He | Hne].
  - rewrite He. reflexivity.
  - rewrite (bool_decide_true _ Hne).
    rewrite (bool_decide_false _ Hne). reflexivity.
Qed.

(** X7. The model that [fromConsumerInfo] builds is always consistent: its
    mode is "push" exactly when the config has a deliver subject and "pull"
    otherwise, so [validateMode] accepts it and [toConsumerConfig] never
    fails on it. *)
Theorem fromConsumerInfo_mode_consistent (info : ConsumerInfo) :
  (consumerResourceModel.Mode (fromConsumerInfo info)
     = types.StringValue "push" ↔
   ConsumerConfig.DeliverSubject (ConsumerInfo.Config info) ≠ "") ∧
  (consumerResourceModel.Mode (fromConsumerInfo info)
     = types.StringValue "pull" ↔
   ConsumerConfig.DeliverSubject (ConsumerInfo.Config info) = "") ∧
  validateMode (fromConsumerInfo info) = None ∧
  snd (toConsumerConfig (fromConsumerInfo info)) = None.
Proof.
  split_and!.
  - unfold fromConsumerInfo. cbn [consumerResourceModel.Mode].
    case_bool_decide as Hd; split; intros H; try done.
  - unfold fromConsumerInfo. cbn [consumerResourceModel.Mode].
    case_bool_decide as Hd; split; intros H; try done.
  - apply fromConsumerInfo_validateMode.
  - unfold toConsumerConfig. by rewrite fromConsumerInfo_validateMode.
Qed.

Lemma consumer_enum_roundtrips :
  (∀ v, v ∈ [DeliverAllPolicy; DeliverNewPolicy; DeliverLastPolicy] →
        ToDeliverPolicy (FromDeliverPolicy v) = v) ∧
  (∀ v, v ∈ [AckNonePolicy; AckAllPolicy; AckExplicitPolicy] →
        ToAckPolicy (FromAckPolicy v) = v) ∧
  (∀ s, In s ["all"; "new"; "last"] →
        FromDeliverPolicy (ToDeliverPolicy s) = s) ∧
  (∀ s, In s ["none"; "all"; "explicit"] →
        FromAckPolicy (ToAckPolicy s) = s).
Proof.
  split_and!.
  - intros v Hv. rewrite !elem_of_cons in Hv.
    destruct Hv as [-> | [-> | [-> | Hv]]];
      [reflexivity.. | by apply elem_of_nil in Hv].
  - intros v Hv. rewrite !elem_of_cons in Hv.
    destruct Hv as [-> | [-> | [-> | Hv]]];
      [reflexivity.. | by apply elem_of_nil in Hv].
  - intros s Hs. simpl in Hs.
    repeat (destruct Hs as [<- | Hs]; [reflexivity |]). destruct Hs.
  - intros s Hs. simpl in Hs.
    repeat (destruct Hs as [<- | Hs]; [reflexivity |]). destruct Hs.
Qed.



Lemma filter_subjects_roundtrip (l : list types.String) :
  Forall (λ s, types.IsKnown s = true) l →
  convertSlice (convertSlice l types.ValueString) types.StringValue = l.
Proof.
  rewrite !convertSlice_map. induction 1 as [| s l Hs _ IH]; simpl.
  - reflexivity.
  - rewrite IH. f_equal. by destruct s.
Qed.

(** X9. A consumer model survives the way to the server and back: when all
    its attributes are known, it passes the validators of the consumer
    schema and [validateMode], then [fromConsumerInfo], applied to the info
    of a server that stored the config as sent, gives the model back. *)
Theorem consumer_roundtrip (m : consumerResourceModel.t) (created : Z) :
  consumer_known m →
  consumerResource_validate m = true →
  validateMode m = None →
  fromConsumerInfo (consumer_echo m created) = m.
Proof.
  destruct m as [stream name mode deliver ack filters subject group].
  unfold consumer_known, consumerResource_validate.
  cbn [consumerResourceModel.StreamName consumerResourceModel.Name
       consumerResourceModel.Mode consumerResourceModel.DeliverPolicy
       consumerResourceModel.AckPolicy consumerResourceModel.FilterSubjects
       consumerResourceModel.DeliverSubject
       consumerResourceModel.DeliverGroup].
  intros (Hstream & Hname & Hmode & Hdeliver & Hack & Hfilters & Hsubject
          & Hgroup).
  destruct stream as [| | stream]; try discriminate Hstream.
  destruct name as [| | name]; try discriminate Hname.
  destruct mode as [| | mode]; try discriminate Hmode.
  destruct deliver as [| | deliver]; try discriminate Hdeliver.
  destruct ack as [| | ack]; try discriminate Hack.
  destruct subject as [| | subject]; try discriminate Hsubject.
  destruct group as [| | group]; try discriminate Hgroup.
  clear Hstream Hname Hmode Hdeliver Hack Hsubject Hgroup.
  intros Hvalid Hcheck.
  change (types.Known ?x) with (types.StringValue x) in Hvalid.
  repeat (erewrite validate_String_lookup in Hvalid by reflexivity).
  cbn [forallb schema.sValidators] in Hvalid.
  rewrite !andb_true_r, !andb_true_iff, !OneOf_In in Hvalid.
  destruct Hvalid as ((Vmode & Vdeliver) & Vack).
  destruct consumer_enum_roundtrips as (_ & _ & Rd & Ra).
  unfold consumer_echo, toConsumerConfig. rewrite Hcheck.
  unfold fromConsumerInfo.
  cbn [fst ConsumerInfo.Config ConsumerInfo.Stream ConsumerInfo.Name
       ConsumerConfig.DeliverSubject ConsumerConfig.DeliverPolicy
       ConsumerConfig.AckPolicy ConsumerConfig.FilterSubjects
       ConsumerConfig.DeliverGroup
       consumerResourceModel.StreamName consumerResourceModel.Name
       consumerResourceModel.Mode consumerResourceModel.DeliverPolicy
       consumerResourceModel.AckPolicy consumerResourceModel.FilterSubjects
       consumerResourceModel.DeliverSubject
       consumerResourceModel.DeliverGroup
       types.ValueString types.get].
  unfold types.StringValue.
  rewrite filter_subjects_roundtrip by done.
  rewrite Rd, Ra by done.
  assert (Hm : (if bool_decide (subject ≠ "") then "push" else "pull")
               = mode); [| by rewrite Hm].
  unfold validateMode in Hcheck.
  cbn [consumerResourceModel.Mode consumerResourceModel.DeliverSubject
       types.ValueString types.get] in Hcheck.
  simpl in Vmode. destruct Vmode as [<- | [<- | []]].
  - rewrite (bool_decide_false ("push" = "pull")) in Hcheck by done.
    rewrite (bool_decide_true ("push" = "push")) in Hcheck by done.
    cbn [andb] in Hcheck. case_bool_decide; [discriminate | ].
    by rewrite bool_decide_true.
  - rewrite (bool_decide_true ("pull" = "pull")) in Hcheck by done.
    cbn [andb] in Hcheck. case_bool_decide as Hs; [| discriminate].
    rewrite bool_decide_false; [done | by intros []].
Qed.

Lemma consumer_roundtrip_witness :
  fromConsumerInfo (consumer_echo new_order_consumer 0) = new_order_consumer.
Proof.
  apply consumer_roundtrip.
  - unfold consumer_known. simpl. split_and!; try reflexivity.
    repeat constructor.
  - vm_compute. reflexivity.
  - reflexivity.
Defined.




End conversions_more.

(** ** The guards of the resource operations *)

Section guards.
Import natsgo nats provider resource.

Ltac run_step H :=
  lazymatch type of H with
  | runs (Call _ _) _ _ =>
      let x := fresh "ans" in
      let tr := fresh "tr" in
      apply runs_inv in H as (x & tr & -> & H); cbn beta in H
  | runs (Ret _) _ _ => apply runs_inv in H as [-> ->]
  | runs (match ?x with _ => _ end) _ _ =>
      destruct x eqn:?; cbn beta iota in H
  end.

(** Every branch of every operation. *)
Ltac all_runs H :=
  unfold streamResource_Create, streamResource_Read, streamResource_Update,
    streamResource_Delete, consumerResource_Create, consumerResource_Read,
    consumerResource_Update, consumerResource_Delete,
    streamDataSource_Read in H;
  repeat run_step H.

Lemma HasError_Append (diags new : Diagnostics) :
  HasError (Append diags new) = HasError diags || HasError new.
Proof.
  revert diags. induction new as [| d new IH]; intros diags.
  - unfold Append. simpl. by rewrite orb_false_r.
  - change (Append diags (d :: new)) with (Append (Append diags [d]) new).
    rewrite IH, HasError_Append_one. simpl. by rewrite orb_assoc.
Qed.

Lemma Append_prefix (diags diags' new : Diagnostics) :
  diags `prefix_of` diags' → diags `prefix_of` Append diags' new.
Proof.
  revert diags'. induction new as [| d new IH]; intros diags' Hp.
  - done.
  - change (Append diags' (d :: new)) with (Append (Append diags' [d]) new).
    apply IH. rewrite Append_one.
    destruct (Contains diags' d); [done | by apply prefix_app_r].
Qed.

Lemma read_blocked {M} `{GoZero M} (resp : Response M) (d : tfsdk.Data M) :
  HasError (Diags resp) = true ∨ d = None →
  HasError (Diags (Diagnostics_Append resp (tfsdk.Get d).1)) = true.
Proof.
  unfold Diagnostics_Append. cbn [Diags]. rewrite HasError_Append.
  intros [-> | ->]; [done |]. simpl. apply orb_true_r.
Qed.

Ltac blocked Hb H :=
  apply read_blocked in Hb;
  match type of H with
  | context [tfsdk.Get ?d] =>
      destruct (tfsdk.Get d) as [diags data] eqn:Hget; cbn [fst] in Hb
  end;
  rewrite Hb in H; apply runs_inv in H as [-> ->]; by split_and!.

Ltac blocked_first Hb H := blocked Hb H.

(** The second read of an [Update] is reached only after a first read
    without error. *)
Ltac blocked_second Hb H :=
  match type of H with
  | context [tfsdk.Get (update_Plan ?req)] =>
      destruct (tfsdk.Get (update_Plan req)) as [diags1 plan] eqn:Hplan;
      match type of H with
      | context [HasError (Diags (Diagnostics_Append ?resp ?d))] =>
          destruct (HasError (Diags (Diagnostics_Append resp d))) eqn:He1;
          [ apply runs_inv in H as [-> ->]; by split_and!
          | assert (Hb' : HasError (Diags (Diagnostics_Append resp d)) = true
                          ∨ update_State req = None)
              by (destruct Hb as [Hb | Hb]; [| by right];
                  left; unfold Diagnostics_Append; cbn [Diags];
                  by rewrite HasError_Append, Hb);
            blocked Hb' H ]
      end
  end.

(** X11. No operation of the resources or of the data source calls the
    client when the response already carries an error or when the plan,
    state or configuration it reads is null: it returns with an error in the
    diagnostics and the state untouched. *)
Theorem operations_skip_on_read_error :
  skips create_Plan streamResource_Create ∧
  skips read_State streamResource_Read ∧
  skips update_Plan streamResource_Update ∧
  skips update_State streamResource_Update ∧
  skips delete_State streamResource_Delete ∧
  skips create_Plan consumerResource_Create ∧
  skips read_State consumerResource_Read ∧
  skips update_Plan consumerResource_Update ∧
  skips update_State consumerResource_Update ∧
  skips delete_State consumerResource_Delete ∧
  skips datasource.Config streamDataSource_Read.
Proof.
  split_and!; intros req resp tr r Hb H.
  - unfold streamResource_Create in H. blocked Hb H.
  - unfold streamResource_Read in H. blocked Hb H.
  - unfold streamResource_Update in H. blocked Hb H.
  - unfold streamResource_Update in H. blocked_second Hb H.
  - unfold streamResource_Delete in H. blocked Hb H.
  - unfold consumerResource_Create in H. blocked Hb H.
  - unfold consumerResource_Read in H. blocked Hb H.
  - unfold consumerResource_Update in H. blocked Hb H.
  - unfold consumerResource_Update in H. blocked_second Hb H.
  - unfold consumerResource_Delete in H. blocked Hb H.
  - unfold streamDataSource_Read in H. blocked Hb H.
Qed.

Lemma operations_skip_on_read_error_witness :
  let run :=
    exec all_gone
      (streamResource_Delete (mkDeleteRequest _ None)
         (mkResponse (Some orders_stream) [])) tt in
  run.1.1 = [] ∧ State run.1.2 = Some orders_stream ∧
  HasError (Diags run.1.2) = true.
Proof.
  intros run.
  apply (proj1 (proj2 (proj2 (proj2 (proj2
           operations_skip_on_read_error))))
           (mkDeleteRequest _ None) (mkResponse (Some orders_stream) [])).
  - by right.
  - apply exec_runs.
Defined.

Ltac read_ok_in Hget Hfresh H :=
  rewrite Hget in H; cbn [tfsdk.Get] in H;
  rewrite Diagnostics_Append_nil in H; rewrite Hfresh in H.

(** X12. [Update] refuses a changed identity before it calls anything: when
    the plan names the stream differently from the state (for a consumer:
    names the consumer or its stream differently), no client call is made,
    an error is added and the state stays as it was. *)
Theorem update_refuses_changed_id :
  (∀ req resp plan state tr r,
     update_Plan req = Some plan → update_State req = Some state →
     fresh resp →
     streamResourceModel.Name plan ≠ streamResourceModel.Name state →
     runs (streamResource_Update req resp) tr r →
     tr = [] ∧ State r = State resp ∧ HasError (Diags r) = true ∧
     ∃ detail,
       In (AttributeErrorDiagnostic "name" "Cannot change stream name" detail)
          (Diags r)) ∧
  (∀ req resp plan state tr r,
     update_Plan req = Some plan → update_State req = Some state →
     fresh resp →
     consumerResourceModel.Name plan ≠ consumerResourceModel.Name state ∨
     consumerResourceModel.StreamName plan
       ≠ consumerResourceModel.StreamName state →
     runs (consumerResource_Update req resp) tr r →
     tr = [] ∧ State r = State resp ∧ HasError (Diags r) = true ∧
     ∃ detail,
       In (ErrorDiagnostic "Cannot change consumer or stream name" detail)
          (Diags r)).
Proof.
  split.
  - intros req resp plan state tr r Hplan Hstate Hfresh Hname H.
    unfold streamResource_Update in H.
    read_ok_in Hplan Hfresh H. read_ok_in Hstate Hfresh H.
    rewrite bool_decide_true in H by done.
    apply runs_inv in H as [-> ->].
    unfold AddAttributeError, Diagnostics_Append. cbn [State Diags].
    split_and!; [done | done | |].
    + rewrite HasError_Append_one. apply orb_true_r.
    + eexists. apply In_Append_one.
  - intros req resp plan state tr r Hplan Hstate Hfresh Hname H.
    unfold consumerResource_Update in H.
    read_ok_in Hplan Hfresh H. read_ok_in Hstate Hfresh H.
    assert (Hid : bool_decide (consumerResourceModel.Name plan
                                 ≠ consumerResourceModel.Name state)
                  || bool_decide (consumerResourceModel.StreamName plan
                                    ≠ consumerResourceModel.StreamName state)
                  = true).
    { apply orb_true_iff.
      destruct Hname; [left | right]; by apply bool_decide_eq_true. }
    rewrite Hid in H. apply runs_inv in H as [-> ->].
    unfold AddError, Diagnostics_Append. cbn [State Diags].
    split_and!; [done | done | |].
    + rewrite HasError_Append_one. apply orb_true_r.
    + eexists. apply In_Append_one.
Qed.

Lemma update_refuses_changed_id_witness :
  let run :=
    exec all_gone
      (streamResource_Update
         (mkUpdateRequest _ (Some renamed_stream) (Some orders_stream))
         (mkResponse (Some orders_stream) [])) tt in
  run.1.1 = [] ∧ State run.1.2 = Some orders_stream ∧
  HasError (Diags run.1.2) = true.
Proof.
  intros run.
  destruct (proj1 update_refuses_changed_id
              (mkUpdateRequest _ (Some renamed_stream) (Some orders_stream))
              (mkResponse (Some orders_stream) [])
              renamed_stream orders_stream run.1.1 run.1.2
              eq_refl eq_refl eq_refl)
    as (? & ? & ? & _); [discriminate | apply exec_runs | by split_and!].
Defined.

(** X13. A consumer whose mode and deliver subject do not fit together is
    refused before anything is called: [Create] and [Update] make no client
    call, add the message of [validateMode] as a "Validation error" and
    leave the state as it was. *)
Theorem consumer_mode_checked_before_call :
  (∀ req resp data err tr r,
     create_Plan req = Some data → fresh resp →
     validateMode data = Some err →
     runs (consumerResource_Create req resp) tr r →
     tr = [] ∧ State r = State resp ∧ HasError (Diags r) = true ∧
     In (ErrorDiagnostic "Validation error" (Error err)) (Diags r)) ∧
  (∀ req resp plan state err tr r,
     update_Plan req = Some plan → update_State req = Some state →
     fresh resp →
     consumerResourceModel.Name plan = consumerResourceModel.Name state →
     consumerResourceModel.StreamName plan
       = consumerResourceModel.StreamName state →
     validateMode plan = Some err →
     runs (consumerResource_Update req resp) tr r →
     tr = [] ∧ State r = State resp ∧ HasError (Diags r) = true ∧
     In (ErrorDiagnostic "Validation error" (Error err)) (Diags r)).
Proof.
  split.
  - intros req resp data err tr r Hplan Hfresh Hmode H.
    unfold consumerResource_Create in H. read_ok_in Hplan Hfresh H.
    unfold toConsumerConfig in H. rewrite Hmode in H.
    apply runs_inv in H as [-> ->].
    destruct (AddError_reported resp "Validation error" (Error err))
      as (? & ? & ?). by split_and!.
  - intros req resp plan state err tr r Hplan Hstate Hfresh Hname Hstream
      Hmode H.
    unfold consumerResource_Update in H.
    read_ok_in Hplan Hfresh H. read_ok_in Hstate Hfresh H.
    rewrite !bool_decide_false in H by (by intros []). cbn [orb] in H.
    unfold toConsumerConfig in H. rewrite Hmode in H.
    apply runs_inv in H as [-> ->].
    destruct (AddError_reported resp "Validation error" (Error err))
      as (? & ? & ?). by split_and!.
Qed.

Lemma consumer_mode_checked_before_call_witness :
  let run :=
    exec all_gone
      (consumerResource_Create
         (mkCreateRequest _ (Some push_without_subject))
         (mkResponse None [])) tt in
  run.1.1 = [] ∧ State run.1.2 = None ∧ HasError (Diags run.1.2) = true.
Proof.
  intros run.
  destruct (proj1 consumer_mode_checked_before_call
              (mkCreateRequest _ (Some push_without_subject))
              (mkResponse None []) push_without_subject
              (ErrorString
                 "Attribute 'deliver_subject' must be set if 'mode' is 'push'")
              run.1.1 run.1.2 eq_refl eq_refl eq_refl (exec_runs _ _ _))
    as (? & ? & ? & _).
  by split_and!.
Defined.

Ltac solve_prefix :=
  unfold AddError, AddWarning, AddAttributeError, State_Set,
    State_RemoveResource, Diagnostics_Append, tfsdk.Set_;
  cbn [Diags];
  repeat apply Append_prefix; done.

(** X14. Whatever the request and whatever the client answers, every
    operation of the resources and of the data source makes at most one
    client call. *)
Theorem operations_call_at_most_once :
  (∀ req resp, at_most_one_call (streamResource_Create req resp)) ∧
  (∀ req resp, at_most_one_call (streamResource_Read req resp)) ∧
  (∀ req resp, at_most_one_call (streamResource_Update req resp)) ∧
  (∀ req resp, at_most_one_call (streamResource_Delete req resp)) ∧
  (∀ req resp, at_most_one_call (consumerResource_Create req resp)) ∧
  (∀ req resp, at_most_one_call (consumerResource_Read req resp)) ∧
  (∀ req resp, at_most_one_call (consumerResource_Update req resp)) ∧
  (∀ req resp, at_most_one_call (consumerResource_Delete req resp)) ∧
  (∀ req resp, at_most_one_call (streamDataSource_Read req resp)).
Proof.
  split_and!; intros req resp tr r H; all_runs H; simpl; lia.
Qed.

(** X15. No operation drops a diagnostic: whatever happens, the
    diagnostics of the response it returns start with the diagnostics of the
    response it was given. *)
Theorem operations_keep_diagnostics :
  keeps_diagnostics streamResource_Create ∧
  keeps_diagnostics streamResource_Read ∧
  keeps_diagnostics streamResource_Update ∧
  keeps_diagnostics streamResource_Delete ∧
  keeps_diagnostics consumerResource_Create ∧
  keeps_diagnostics consumerResource_Read ∧
  keeps_diagnostics consumerResource_Update ∧
  keeps_diagnostics consumerResource_Delete ∧
  keeps_diagnostics streamDataSource_Read.
Proof.
  split_and!; intros req resp tr r H; all_runs H; solve_prefix.
Qed.

(** X16. The data source does not treat a missing stream as the resource
    does: once its configuration is read it calls [GetStream] once, and on
    every error, [ErrNotFound] included, it adds an error diagnostic and
    leaves the state as it was; on success it writes the model made from the
    info. *)
Theorem data_source_read :
  ∀ req resp config,
    datasource.Config req = Some config → fresh resp →
    calls_once (streamDataSource_Read req resp)
      (GetStream (types.ValueString (streamResourceModel.Name config)))
      (call_post fromStreamInfo "Failed to get stream: " resp).
Proof.
  intros req resp config Hconfig Hfresh.
  unfold streamDataSource_Read. rewrite Hconfig. cbn [tfsdk.Get].
  rewrite Diagnostics_Append_nil, Hfresh.
  apply calls_once_intro. intros [info [err |]];
    unfold call_post; cbn [fst snd];
    (eexists; split; [reflexivity |]).
  - apply AddError_reported.
  - apply State_Set_wrote.
Qed.

Lemma data_source_read_witness :
  calls_once
    (streamDataSource_Read (datasource.mkReadRequest _ (Some orders_stream))
       (mkResponse None []))
    (GetStream "orders")
    (call_post fromStreamInfo "Failed to get stream: " (mkResponse None [])).
Proof.
  apply (data_source_read
           (datasource.mkReadRequest _ (Some orders_stream))
           (mkResponse None []) orders_stream); reflexivity.
Defined.

(** A stream that is gone is an error for the data source. *)
Example data_source_read_of_a_lost_stream :
  (exec all_gone
     (streamDataSource_Read
        (datasource.mkReadRequest _ (Some orders_stream))
        (mkResponse None [])) tt).1.2
  = mkResponse None
      [ErrorDiagnostic "Client error" "Failed to get stream: not found"].
Proof. reflexivity. Qed.

End guards.

(** ** Import of a consumer by an id with a separator *)

Section import_more.
Import natsgo nats provider resource.

Lemma strings_Split_plain (s : string) :
  ¬ has_separator s → strings_Split s "#"%char = [s].
Proof.
  unfold has_separator. induction s as [| c s IH]; simpl; [done |].
  intros Hno. case_decide as Hc; [by destruct Hno; left |].
  rewrite IH; [done |]. intros Hin. apply Hno. by right.
Qed.

Lemma strings_Split_two_parts (s c : string) :
  ¬ has_separator s → ¬ has_separator c →
  strings_Split (s ++ "#" ++ c)%string "#"%char = [s; c].
Proof.
  unfold has_separator. intros Hs Hc.
  induction s as [| a s IH]; simpl.
  - by rewrite strings_Split_plain.
  - simpl in Hs. case_decide as Ha; [by destruct Hs; left |].
    rewrite IH; [done |]. intros Hin. apply Hs. by right.
Qed.

(** X17. An import id with at least one [#] never makes the import panic.
    The attributes are set from the first two parts of the id in every case
    ([name] first to the whole id, then to the second part), also when the
    id is malformed; the "Invalid import id" error is added exactly when the
    id does not consist of two non-empty parts. *)
Theorem consumer_import_with_separator
    (req : ImportStateRequest) (resp : ImportStateResponse) :
  has_separator (ID req) →
  ∃ t0 t1 rest r,
    strings_Split (ID req) "#"%char = t0 :: t1 :: rest ∧
    consumerResource_ImportState req resp = Done r ∧
    import_State r
      = <["name" := t1]> (<["stream_name" := t0]>
          (<["name" := ID req]> (import_State resp))) ∧
    import_Diags r
      = if bool_decide (rest = [] ∧ t0 ≠ "" ∧ t1 ≠ "")
        then import_Diags resp
        else Append (import_Diags resp)
               [ErrorDiagnostic "Invalid import id"
                  "The import id must be of the format 'stream_name#consumer_name'"].
Proof.
  intros Hsep.
  destruct (strings_Split_length (ID req) "#"%char) as [Hlen Hge].
  unfold consumerResource_ImportState.
  destruct (strings_Split (ID req) "#"%char) as [| t0 [| t1 rest]] eqn:E.
  - simpl in Hge. lia.
  - destruct (proj1 Hlen eq_refl). exact Hsep.
  - exists t0, t1, rest. unfold index. cbn [lookup list_lookup obind].
    destruct rest as [| t2 rest].
    + cbn [length]. rewrite (bool_decide_true (2%nat = 2%nat)) by done.
      cbn [negb obind].
      destruct (decide (t0 = "")) as [-> | H0].
      * rewrite bool_decide_true by done. cbn [obind].
        eexists. split_and!; [done.. |].
        rewrite bool_decide_false; [done | by intros (_ & ? & _)].
      * rewrite (bool_decide_false (t0 = "")) by done. cbn [obind].
        destruct (decide (t1 = "")) as [-> | H1].
        -- rewrite bool_decide_true by done.
           eexists. split_and!; [done.. |].
           rewrite bool_decide_false; [done | by intros (_ & _ & ?)].
        -- rewrite (bool_decide_false (t1 = "")) by done.
           eexists. split_and!; [done.. |].
           by rewrite bool_decide_true.
    + rewrite (bool_decide_false (length (t0 :: t1 :: t2 :: rest) = 2%nat))
        by (simpl; lia).
      cbn [negb obind].
      eexists. split_and!; [done.. |].
      rewrite bool_decide_false; [done | by intros (? & _)].
Qed.

Lemma consumer_import_with_separator_witness :
  ∃ t0 t1 rest r,
    strings_Split "a#b#c" "#"%char = t0 :: t1 :: rest ∧
    consumerResource_ImportState (mkImportStateRequest "a#b#c")
      (mkImportStateResponse ∅ []) = Done r ∧
    import_State r
      = <["name" := t1]> (<["stream_name" := t0]>
          (<["name" := "a#b#c"]> ∅)) ∧
    import_Diags r
      = if bool_decide (rest = [] ∧ t0 ≠ "" ∧ t1 ≠ "")
        then []
        else Append []
               [ErrorDiagnostic "Invalid import id"
                  "The import id must be of the format 'stream_name#consumer_name'"].
Proof.
  apply (consumer_import_with_separator (mkImportStateRequest "a#b#c")
           (mkImportStateResponse ∅ [])).
  unfold has_separator. simpl. right. by left.
Defined.

(** X18. Importing by a well-formed id works as the message promises: for
    a stream name and a consumer name that are not empty and contain no
    [#], the id [stream#consumer] sets [stream_name] and [name] to the two
    names, touches no other attribute and adds no diagnostic. *)
Theorem consumer_import_well_formed (stream consumer : string)
    (resp : ImportStateResponse) :
  stream ≠ "" → consumer ≠ "" →
  ¬ has_separator stream → ¬ has_separator consumer →
  ∃ r,
    consumerResource_ImportState
      (mkImportStateRequest (stream ++ "#" ++ consumer)%string) resp = Done r ∧
    import_State r !! "stream_name" = Some stream ∧
    import_State r !! "name" = Some consumer ∧
    (∀ attr, attr ≠ "stream_name" → attr ≠ "name" →
             import_State r !! attr = import_State resp !! attr) ∧
    import_Diags r = import_Diags resp.
Proof.
  intros Hs Hc Hns Hnc.
  unfold consumerResource_ImportState. cbn [ID].
  rewrite strings_Split_two_parts by done.
  unfold index. cbn [lookup list_lookup obind length].
  rewrite (bool_decide_true (2%nat = 2%nat)) by done. cbn [negb obind].
  rewrite !bool_decide_false by done. cbn [obind].
  eexists. split; [reflexivity |].
  unfold SetAttribute, ImportStatePassthroughID, SetAttribute.
  rewrite decide_False by done.
  cbn [import_State import_Diags ID]. split_and!.
  - rewrite lookup_insert_ne by done. apply lookup_insert_eq.
  - apply lookup_insert_eq.
  - intros attr H1 H2. by rewrite !lookup_insert_ne.
  - done.
Qed.

Lemma consumer_import_well_formed_witness :
  ∃ r,
    consumerResource_ImportState
      (mkImportStateRequest "orders#new_order_consumer")
      (mkImportStateResponse ∅ []) = Done r ∧
    import_State r !! "stream_name" = Some "orders" ∧
    import_State r !! "name" = Some "new_order_consumer" ∧
    (∀ attr, attr ≠ "stream_name" → attr ≠ "name" →
             import_State r !! attr = (∅ : gmap string string) !! attr) ∧
    import_Diags r = [].
Proof.
  apply (consumer_import_well_formed "orders" "new_order_consumer"
           (mkImportStateResponse ∅ [])); try done.
  - unfold has_separator. simpl. intros H.
    repeat (destruct H as [H | H]; [discriminate H |]). destruct H.
  - unfold has_separator. simpl. intros H.
    repeat (destruct H as [H | H]; [discriminate H |]). destruct H.
Defined.

End import_more.

(** ** The resources on top of the client *)

Section composition.
Import natsgo nats provider resource.

Ltac run_step H :=
  lazymatch type of H with
  | runs (Call _ _) _ _ =>
      let x := fresh "ans" in
      let tr := fresh "tr" in
      apply runs_inv in H as (x & tr & -> & H); cbn beta in H
  | runs (Ret _) _ _ => apply runs_inv in H as [-> ->]
  | runs (match ?x with _ => _ end) _ _ =>
      destruct x eqn:?; cbn beta iota in H
  | runs (bind (match ?x with _ => _ end) _) _ _ =>
      destruct x eqn:?; cbn [bind call] in H
  | runs (bind _ _) _ _ => cbn [bind call] in H
  | runs (defer_Close _ _) _ _ => unfold defer_Close in H
  end.

Ltac run_client H :=
  unfold client_call, client_GetStream, client_CreateStream,
    client_UpdateStream, client_DeleteStream, client_GetConsumer,
    client_CreateConsumer, client_UpdateConsumer, client_DeleteConsumer in H;
  repeat run_step H.

Lemma runs_interp {E F R} (h : ∀ X, E X → Prog F X) (p : Prog E R) tr r :
  runs (interp h p) tr r →
  ∃ hi segments, runs p hi r ∧ expands h hi segments ∧ tr = concat segments.
Proof.
  revert tr. induction p as [r' | X e k IH]; simpl; intros tr Hrun.
  - apply runs_inv in Hrun as [-> ->].
    exists [], []. split_and!; [constructor | constructor | done].
  - apply runs_bind_inv in Hrun as (tr1 & tr2 & x & -> & H1 & H2).
    destruct (IH x tr2 H2) as (hi & segments & Hp & Hexp & ->).
    exists (Ev e x :: hi), (tr1 :: segments).
    split_and!; [by constructor | by constructor | done].
Qed.

Lemma expands_inv {E F} (h : ∀ X, E X → Prog F X) hi segments :
  expands h hi segments →
  match hi with
  | [] => segments = []
  | Ev e x :: hi' =>
      ∃ lo segments', segments = lo :: segments' ∧
                      runs (h _ e) lo x ∧ expands h hi' segments'
  end.
Proof. destruct 1; eauto. Qed.

(** One upper call, carried out: one segment. *)
Lemma expands_one {E F X} (h : ∀ X, E X → Prog F X) (e : E X) (x : X)
    segments :
  expands h [Ev e x] segments →
  ∃ lo, segments = [lo] ∧ runs (h _ e) lo x.
Proof.
  intros (lo & segments' & -> & Hlo & Hrest)%expands_inv.
  apply expands_inv in Hrest as ->. by exists lo.
Qed.

Lemma expands_sessions (c : client) hi segments :
  expands (@client_call c) hi segments →
  length segments = length hi ∧ Forall (session (url c)) segments.
Proof.
  induction 1 as [| X e x hi lo segments Hlo _ [IHlen IHall]]; simpl.
  - by split.
  - split; [by rewrite IHlen |].
    constructor; [by eapply client_call_session | done].
Qed.

(** X19. The resources on top of the client: when the calls of any program
    over the [Client] interface are carried out by the methods of the
    client, the library sees one session per client call, one after the
    other, each to the url of the client; in particular a program that
    makes at most one client call, as every operation of the provider does,
    connects at most once. *)
Theorem client_calls_are_sessions (c : client) {R} (p : Prog Client R) tr r :
  runs (interp (@client_call c) p) tr r →
  (∃ hi segments,
     runs p hi r ∧ tr = concat segments ∧
     length segments = length hi ∧
     Forall (session (url c)) segments) ∧
  (at_most_one_call p → tr = [] ∨ session (url c) tr).
Proof.
  intros Hrun.
  destruct (runs_interp _ _ _ _ Hrun) as (hi & segments & Hp & Hexp & ->).
  destruct (expands_sessions c hi segments Hexp) as [Hlen Hall].
  split; [by exists hi, segments |].
  intros Hone. specialize (Hone hi r Hp). rewrite <- Hlen in Hone.
  destruct segments as [| lo [| lo' segments]]; simpl in *.
  - by left.
  - right. rewrite app_nil_r. by inversion Hall.
  - lia.
Qed.

Lemma client_calls_are_sessions_witness :
  let run :=
    exec no_such_stream
      (interp (@client_call (NewClient "nats://localhost:4222"))
         (streamResource_Delete (mkDeleteRequest _ (Some orders_stream))
            (mkResponse (Some orders_stream) []))) 0%nat in
  run.1.1 = [] ∨ session "nats://localhost:4222" run.1.1.
Proof.
  intros run.
  apply (client_calls_are_sessions (NewClient "nats://localhost:4222")
           _ run.1.1 run.1.2 (exec_runs _ _ _)).
  intros hi r' Hhi. unfold streamResource_Delete in Hhi.
  repeat run_step Hhi; simpl; lia.
Defined.

Lemma errors_Is_refl (e : error) : errors_Is e e = true.
Proof. destruct e; simpl; try case_decide; done. Qed.

Lemma errors_Is_wrap prefix (cause target : error) :
  errors_Is (Errorf_w prefix cause) target
  = bool_decide (Errorf_w prefix cause = target) || errors_Is cause target.
Proof. simpl. by case_decide; case_bool_decide. Qed.

Lemma first_failure_In tr err :
  first_failure tr = Some err → ∃ ev, In ev tr ∧ ev_failure ev = Some err.
Proof.
  unfold first_failure. induction tr as [| ev tr IH]; simpl; [done |].
  destruct (ev_failure ev) as [e |] eqn:He; simpl.
  - intros [= <-]. exists ev. split; [by left | done].
  - intros (ev' & Hin & Hev)%IH. exists ev'. split; [by right | done].
Qed.

(** What a client method returns, read off the library calls of its run. *)
Lemma client_call_result (c : client) {X} (m : Client X) tr (r : X) :
  runs (client_call c m) tr r →
  match first_failure tr with
  | None => call_error m r = None ∧ request_failure tr = None
  | Some err =>
      (request_failure tr = None ∨ request_failure tr = Some err) ∧
      ((call_error m r = Some ErrNotFound ∧ is_Get m = true ∧
        request_failure tr = Some err ∧ is_not_found err = true) ∨
       ((∃ prefix, call_error m r = Some (Errorf_w prefix err)) ∧
        ¬ (is_Get m = true ∧ request_failure tr = Some err
           ∧ is_not_found err = true)))
  end.
Proof.
  intros H. destruct m; run_client H.
  all: unfold first_failure, request_failure; simpl.
  all: first [ by split
             | split; [by auto |];
               first [ left; by split_and!
                     | right; split; [by eexists |];
                       intros (? & ? & ?); congruence ] ].
Qed.

(** X20. Every error that a client method returns, the sentinel
    [ErrNotFound] apart, still matches with [errors.Is] the library error
    that caused it; and a method returns an error exactly when one of its
    library calls failed. *)
Theorem client_errors_keep_cause (c : client) {X} (m : Client X) tr (r : X) :
  runs (client_call c m) tr r →
  (first_failure tr = None ↔ call_error m r = None) ∧
  (∀ err, first_failure tr = Some err →
     ∃ e, call_error m r = Some e ∧
          (e = ErrNotFound ∨ errors_Is e err = true)).
Proof.
  intros H. pose proof (client_call_result c m tr r H) as Hres.
  destruct (first_failure tr) as [err |].
  - destruct Hres as [_ Hres]. split.
    + split; [done |]. intros Hnone.
      destruct Hres as [(He & _) | [[prefix He] _]]; congruence.
    + intros err' [= <-].
      destruct Hres as [(He & _) | [[prefix He] _]].
      * exists ErrNotFound. by split; [| left].
      * exists (Errorf_w prefix err). split; [done | right].
        rewrite errors_Is_wrap, errors_Is_refl. apply orb_true_r.
  - destruct Hres as [Hres _]. split; [done | intros err' [=]].
Qed.

Lemma client_errors_keep_cause_witness :
  ∃ e, call_error (GetStream "orders")
         (exec no_such_stream
            (client_call (NewClient "nats://localhost:4222")
               (GetStream "orders")) 0%nat).1.2 = Some e ∧
       (e = ErrNotFound ∨ errors_Is e ErrStreamNotFound = true).
Proof.
  apply (client_errors_keep_cause (NewClient "nats://localhost:4222")
           (GetStream "orders")
           (exec no_such_stream
              (client_call (NewClient "nats://localhost:4222")
                 (GetStream "orders")) 0%nat).1.1).
  - apply exec_runs.
  - reflexivity.
Defined.

Lemma read_end_to_end {M I} (from : I → M) not_found failed
    (resp r : Response M) (ans : result I) (lo : list (Event NatsE))
    (get : Client (result I)) (c : client) :
  call_error get = snd → is_Get get = true →
  State resp ≠ None →
  runs (client_call c get) lo ans →
  library_errors lo →
  read_post from not_found failed resp ans r →
  (State r = None ↔
   ∃ err, request_failure lo = Some err ∧ is_not_found err = true).
Proof.
  intros Hcall Hget Hstate Hlo Hlib Hpost.
  pose proof (client_call_result c get lo ans Hlo) as Hres.
  rewrite Hcall in Hres. unfold read_post in Hpost.
  destruct (first_failure lo) as [err |] eqn:Hfirst.
  - destruct Hres as [Hreq [(He & _ & Hreq' & Hnf) | [[prefix He] Hnot]]].
    + rewrite He in Hpost. simpl in Hpost. destruct Hpost as (Hs & _).
      split; [by exists err | done].
    + rewrite He in Hpost. rewrite errors_Is_wrap in Hpost.
      rewrite bool_decide_false in Hpost by done.
      destruct (first_failure_In lo err Hfirst) as (ev & Hin & Hev).
      rewrite (Hlib ev err Hin Hev) in Hpost.
      destruct Hpost as (Hs & _). split.
      * intros Hnone. rewrite Hs in Hnone. by destruct Hstate.
      * intros (err' & Hreq' & Hnf). exfalso. apply Hnot.
        destruct Hreq as [Hreq | Hreq]; [congruence |].
        assert (err' = err) as -> by congruence. by split_and!.
  - destruct Hres as [Hres Hreq]. rewrite Hres in Hpost.
    destruct Hpost as [Hs _]. split.
    + intros Hnone. congruence.
    + intros (err & Hreq' & _). congruence.
Qed.

(** X21. [Read] on top of the client, when no error of the library is or
    wraps this package's own sentinel: the resource is removed from the
    state exactly when the JetStream request failed with an error that is
    [ErrStreamNotFound] or [ErrConsumerNotFound].  A connection that cannot
    be opened, or any other failure, never removes it. *)
Theorem read_removes_only_what_is_not_found (c : client) :
  (∀ req resp data tr r,
     read_State req = Some data → fresh resp → State resp ≠ None →
     runs (interp (@client_call c) (streamResource_Read req resp)) tr r →
     library_errors tr →
     (State r = None ↔
      ∃ err, request_failure tr = Some err ∧ is_not_found err = true)) ∧
  (∀ req resp data tr r,
     read_State req = Some data → fresh resp → State resp ≠ None →
     runs (interp (@client_call c) (consumerResource_Read req resp)) tr r →
     library_errors tr →
     (State r = None ↔
      ∃ err, request_failure tr = Some err ∧ is_not_found err = true)).
Proof.
  split; intros req resp data tr r Hstate Hfresh Hsome Hrun Hlib.
  - destruct (runs_interp _ _ _ _ Hrun) as (hi & segments & Hp & Hexp & ->).
    destruct (streamResource_Read_calls_once req resp data Hstate Hfresh)
      as [Hone _].
    destruct (Hone hi r Hp) as (ans & -> & Hpost).
    apply expands_one in Hexp as (lo & -> & Hlo).
    simpl in *. rewrite app_nil_r in *.
    by eapply (read_end_to_end _ _ _ _ _ _ _ (GetStream _)).
  - destruct (runs_interp _ _ _ _ Hrun) as (hi & segments & Hp & Hexp & ->).
    destruct (consumerResource_Read_calls_once req resp data Hstate Hfresh)
      as [Hone _].
    destruct (Hone hi r Hp) as (ans & -> & Hpost).
    apply expands_one in Hexp as (lo & -> & Hlo).
    simpl in *. rewrite app_nil_r in *.
    by eapply (read_end_to_end _ _ _ _ _ _ _ (GetConsumer _ _)).
Qed.

Lemma read_removes_only_what_is_not_found_witness :
  State
    (exec no_such_stream
       (interp (@client_call (NewClient "nats://localhost:4222"))
          (streamResource_Read (mkReadRequest _ (Some orders_stream))
             (mkResponse (Some orders_stream) []))) 0%nat).1.2 = None
  ↔ ∃ err,
      request_failure
        (exec no_such_stream
           (interp (@client_call (NewClient "nats://localhost:4222"))
              (streamResource_Read (mkReadRequest _ (Some orders_stream))
                 (mkResponse (Some orders_stream) []))) 0%nat).1.1
        = Some err
      ∧ is_not_found err = true.
Proof.
  apply (proj1 (read_removes_only_what_is_not_found
                  (NewClient "nats://localhost:4222"))
           (mkReadRequest _ (Some orders_stream))
           (mkResponse (Some orders_stream) []) orders_stream).
  - reflexivity.
  - reflexivity.
  - discriminate.
  - apply exec_runs.
  - intros ev err Hin Hev. vm_compute in Hin.
    repeat (destruct Hin as [<- | Hin]; [by vm_compute in Hev; simplify_eq |]).
    destruct Hin.
Defined.

(** X22. Configuring the provider: the url set in the provider block wins
    over the environment; without it the variable [NATS_URL] is used when it
    is set and not empty, and [nats://localhost:4222] otherwise, so that the
    url is never empty unless it was set so.  Resources and data sources
    get the same client, and every method of that client connects to the
    chosen url first. *)
Theorem provider_url_choice (env : gmap string string)
    (req : tfprovider.ConfigureRequest natsProviderModel)
    (resp : tfprovider.ConfigureResponse client)
    (config : natsProviderModel) :
  tfprovider.Config req = Some config →
  HasError (tfprovider.Diags resp) = false →
  ∃ c,
    tfprovider.ResourceData (NatsProvider_Configure env req resp) = Some c ∧
    tfprovider.DataSourceData (NatsProvider_Configure env req resp) = Some c ∧
    (types.IsNull (URL config) = false →
     url c = types.ValueString (URL config)) ∧
    (types.IsNull (URL config) = true →
     url c ≠ "" ∧
     (∀ u, env !! "NATS_URL" = Some u → u ≠ "" → url c = u) ∧
     (env !! "NATS_URL" = None ∨ env !! "NATS_URL" = Some "" →
      url c = "nats://localhost:4222")) ∧
    (∀ X (m : Client X) tr r,
       runs (client_call c m) tr r →
       connect_url <$> head tr = Some (Some (url c))).
Proof.
  intros Hconfig Hfresh. unfold NatsProvider_Configure.
  rewrite Hconfig. cbn [tfsdk.Get tfprovider.Diags].
  change (Append (tfprovider.Diags resp) []) with (tfprovider.Diags resp).
  rewrite Hfresh. eexists.
  cbn [tfprovider.ResourceData tfprovider.DataSourceData].
  split_and!; [reflexivity | reflexivity | | |].
  - intros ->. reflexivity.
  - intros ->. cbn [negb url NewClient]. unfold os_Getenv.
    split_and!.
    + case_bool_decide; simpl; [done | done].
    + intros u -> Hu. simpl. by rewrite bool_decide_false.
    + intros [-> | ->]; reflexivity.
  - intros X m tr r Hrun.
    by destruct (client_call_session _ m tr r Hrun).
Qed.

Lemma provider_url_choice_witness :
  ∃ c,
    tfprovider.ResourceData
      (NatsProvider_Configure {["NATS_URL" := "nats://broker:4222"]}
         (tfprovider.mkConfigureRequest _
            (Some (mknatsProviderModel types.Null)))
         (tfprovider.mkConfigureResponse None None [])) = Some c ∧
    url c = "nats://broker:4222".
Proof.
  destruct (provider_url_choice {["NATS_URL" := "nats://broker:4222"]}
              (tfprovider.mkConfigureRequest _
                 (Some (mknatsProviderModel types.Null)))
              (tfprovider.mkConfigureResponse None None [])
              (mknatsProviderModel types.Null) eq_refl eq_refl)
    as (c & Hr & _ & _ & Hnull & _).
  exists c. split; [done |].
  destruct (Hnull eq_refl) as (_ & Henv & _).
  by apply Henv.
Defined.

End composition.
